(** * dataplug.cloudobject: cloud data types and cloud object references

    A shallow embedding of [src/dataplug/cloudobject.py].  Python objects
    that the code mutates ([CloudDataType], [CloudObject]) are records
    threaded through a state-and-exception monad; the object store behind
    the S3 client is part of the threaded state, together with the list of
    calls issued to it. *)

From Stdlib Require Import Ascii String.
From stdpp Require Import base option strings gmap list.

Open Scope string_scope.

(** ** Python exceptions and the state-and-exception monad *)

Module Py.

(** The exception classes the module raises or catches.  [Exception]
    carries its message; [KeyError] is the one class an [except] clause of
    the module names. *)
Inductive exn : Type :=
| KeyError
| TypeError (msg : string)
| ValueError (msg : string)
| AttributeError (msg : string)
| Exception (msg : string).

#[global] Instance exn_eq_dec : EqDecision exn.
Proof. solve_decision. Defined.

(** Outcome of a call: a returned value or a raised exception. *)
Inductive result (A : Type) : Type :=
| Return (a : A)
| Raise (e : exn).
Arguments Return {A} a.
Arguments Raise {A} e.

(** A computation over a mutable state [S].  The state is returned
    in both outcomes: what was assigned before a [raise] stays assigned. *)
Definition M (S A : Type) : Type := S -> result A * S.

Definition ret {S A} (a : A) : M S A := fun s => (Return a, s).

Definition raise {S A} (e : exn) : M S A := fun s => (Raise e, s).

Definition bind {S A B} (m : M S A) (k : A -> M S B) : M S B :=
  fun s =>
    match m s with
    | (Return a, s') => k a s'
    | (Raise e, s') => (Raise e, s')
    end.

Definition get {S} : M S S := fun s => (Return s, s).

Definition modify {S} (f : S -> S) : M S unit := fun s => (Return tt, f s).

(** [try: body except KeyError as e: handler e]; every other exception
    propagates. *)
Definition try_except_KeyError {S A} (body : M S A) (handler : exn -> M S A)
  : M S A :=
  fun s =>
    match body s with
    | (Raise KeyError, s') => handler KeyError s'
    | r => r
    end.

(** [if c: body] with no [else]. *)
Definition when {S} (c : bool) (body : M S unit) : M S unit :=
  if c then body else ret tt.

(** A call that touches no state: it only returns or raises. *)
Definition pure {S A} (r : result A) : M S A := fun s => (r, s).

End Py.

Import Py.

Declare Scope py_scope.
Delimit Scope py_scope with py.
Notation "x <- m ;; k" := (bind m (fun x => k))
  (at level 100, m at next level, right associativity) : py_scope.
Notation "m ;; k" := (bind m (fun _ => k))
  (at level 100, right associativity) : py_scope.
Open Scope py_scope.

(** ** CloudDataType *)

(** A Python class object, as far as this module looks at it: its name and
    whether [issubclass] relates it to the two preprocessor bases. *)
Record pyclass : Type := PyClass {
  class_name : string;
  is_BatchPreprocessor : bool;
  is_MapReducePreprocessor : bool
}.

#[global] Instance pyclass_eq_dec : EqDecision pyclass.
Proof. solve_decision. Defined.

(** The argument of [CloudDataType.__call__]: any Python object.
    [inspect.isclass] tells classes from the rest. *)
Inductive pyobject : Type :=
| ClassObject (c : pyclass)
| OtherObject (type_name : string).

#[global] Instance pyobject_eq_dec : EqDecision pyobject.
Proof. solve_decision. Defined.

Definition isclass (o : pyobject) : bool :=
  match o with
  | ClassObject _ => true
  | OtherObject _ => false
  end.

(** [repr] of a class object, as an f-string prints it. *)
Definition repr_class (name : string) : string := "<class '" ++ name ++ "'>".

(** [type(o)], printed. *)
Definition repr_type (o : pyobject) : string :=
  match o with
  | ClassObject _ => repr_class "type"
  | OtherObject type_name => repr_class type_name
  end.

(** [str(o)] for the objects [co_class] can hold. *)
Definition repr_object (o : pyobject) : string :=
  match o with
  | ClassObject c => repr_class (class_name c)
  | OtherObject type_name => "<" ++ type_name ++ " object>"
  end.

(** [__init__] stores its two arguments and sets [co_class] to [None]. *)
#[warnings="-register-all"]
Inductive CloudDataType : Type :=
  MkCloudDataType {
    co_class : option pyobject;
    __preprocessor : option pyclass;
    __parent : option CloudDataType
  }.

Definition CloudDataType__init__ (preprocessor : option pyclass)
    (inherit_from : option CloudDataType) : CloudDataType :=
  {| co_class := None; __preprocessor := preprocessor; __parent := inherit_from |}.

(** The [preprocessor] property. *)
Fixpoint preprocessor (self : CloudDataType) : result pyclass :=
  match __preprocessor self with
  | Some p => Return p
  | None =>
      match __parent self with
      | Some parent => preprocessor parent
      | None => Raise (Exception "There is not preprocessor")
      end
  end.

(** [__call__]: the decorator that binds a class. *)
Definition CloudDataType__call__ (cls : pyobject) : M CloudDataType CloudDataType :=
  if negb (isclass cls) then
    raise (TypeError ("CloudObject expected to use with class type, not "
                      ++ repr_type cls))
  else
    self <- get ;;
    match co_class self with
    | None =>
        modify (fun self => {| co_class := Some cls;
                               __preprocessor := __preprocessor self;
                               __parent := __parent self |}) ;;
        get
    | Some bound =>
        raise (Exception ("Can't overwrite decorator, now is " ++ repr_object bound))
    end.

(** ** The object store behind the S3 client *)

(** [Dict[str, str]], the type of the two metadata records. *)
Abbreviation Dict := (gmap string string).

(** Python truthiness of an [Optional[Dict]]: [None] and the empty dict are
    both falsy.  [not x] is [negb (truthy x)]. *)
Definition truthy (x : option Dict) : bool :=
  match x with
  | None => false
  | Some d => negb (bool_decide (d = ∅))
  end.

(** What the store holds under a bucket and key: the fields a HEAD reports
    and the encoded attributes that come with them. *)
Record S3Object : Type := MkS3Object {
  fields : Dict;
  payload : string
}.

(** Calls made on the client, in the order they were made. *)
Inductive S3Call : Type :=
| HeadObject (Bucket Key : string)
| UploadFile (Filename Bucket Key : string).

#[global] Instance S3Call_eq_dec : EqDecision S3Call.
Proof. solve_decision. Defined.

(** The world outside the program: the objects in the store, what each
    local file holds (as the object an upload of it creates), and the calls
    made so far. *)
Record World : Type := MkWorld {
  objects : gmap (string * string) S3Object;
  local_files : string -> S3Object;
  calls : list S3Call
}.

Definition record_call (c : S3Call) : M World unit :=
  modify (fun w => {| objects := objects w; local_files := local_files w;
                      calls := calls w ++ [c] |}).

(** The HEAD calls of a trace that address one bucket and key. *)
Definition is_head_of (bucket key : string) (c : S3Call) : bool :=
  bool_decide (c = HeadObject bucket key).

Definition head_count (bucket key : string) (trace : list S3Call) : nat :=
  length (filter (fun c => is_head_of bucket key c = true) trace).

Definition is_upload (c : S3Call) : bool :=
  match c with
  | UploadFile _ _ _ => true
  | HeadObject _ _ => false
  end.

(** ** Object locations *)

Record PureS3Path : Type := MkPureS3Path {
  bucket : string;
  key : string
}.

#[global] Instance PureS3Path_eq_dec : EqDecision PureS3Path.
Proof. solve_decision. Defined.

Definition from_bucket_key (bucket key : string) : PureS3Path :=
  {| bucket := bucket; key := key |}.

(** Splits a string at its first ["/"]. *)
Fixpoint split_first_slash (s : string) : option (string * string) :=
  match s with
  | EmptyString => None
  | String c rest =>
      if Ascii.eqb c "/"%char then Some (EmptyString, rest)
      else
        match split_first_slash rest with
        | Some (seg, remainder) => Some (String c seg, remainder)
        | None => None
        end
  end.

(** No character of the string is ["/"]. *)
Fixpoint no_slash (s : string) : bool :=
  match s with
  | EmptyString => true
  | String c rest => negb (Ascii.eqb c "/"%char) && no_slash rest
  end.

(** Removes [p] from the front of [s], when [s] starts with it. *)
Fixpoint strip_prefix (p s : string) : option string :=
  match p, s with
  | EmptyString, _ => Some s
  | String a p', String b s' =>
      if Ascii.eqb a b then strip_prefix p' s' else None
  | String _ _, EmptyString => None
  end.

(** [s] ends with [suffix]. *)
Fixpoint ends_with (suffix s : string) : bool :=
  bool_decide (s = suffix)
  || match s with
     | EmptyString => false
     | String _ rest => ends_with suffix rest
     end.

(** A name of the form [__x__]: it starts and ends with two underscores. *)
Definition is_dunder (name : string) : bool :=
  match strip_prefix "__" name with
  | Some rest => ends_with "__" rest
  | None => false
  end.

(** Values an attribute can take. *)
Inductive Any : Type :=
| AnyInt (n : Z)
| AnyStr (s : string).

#[global] Instance Any_eq_dec : EqDecision Any.
Proof. solve_decision. Defined.

(** A [SimpleNamespace] built from the keywords of a dict: the attributes
    record is the mapping it was built from. *)
Abbreviation SimpleNamespace := (gmap string Any).

(** [PickleableS3ClientProxy]: the handle keeps the settings it was built
    with. *)
Record PickleableS3ClientProxy : Type := MkPickleableS3ClientProxy {
  aws_access_key_id : option string;
  aws_secret_access_key : option string;
  region_name : option string;
  endpoint_url : option string;
  botocore_config_kwargs : option string;
  use_token : option string;
  role_arn : option string;
  token_duration_seconds : option string
}.

Record CloudObject : Type := MkCloudObject {
  _obj_meta : option Dict;
  _meta_meta : option Dict;
  _obj_path : PureS3Path;
  _meta_path : PureS3Path;
  _cls : CloudDataType;
  _s3 : PickleableS3ClientProxy;
  _obj_attrs : SimpleNamespace
}.

(** [self._obj_meta = v] and its siblings. *)
Definition set_obj_meta (v : option Dict) (self : CloudObject) : CloudObject :=
  {| _obj_meta := v; _meta_meta := _meta_meta self; _obj_path := _obj_path self;
     _meta_path := _meta_path self; _cls := _cls self; _s3 := _s3 self;
     _obj_attrs := _obj_attrs self |}.

Definition set_meta_meta (v : option Dict) (self : CloudObject) : CloudObject :=
  {| _obj_meta := _obj_meta self; _meta_meta := v; _obj_path := _obj_path self;
     _meta_path := _meta_path self; _cls := _cls self; _s3 := _s3 self;
     _obj_attrs := _obj_attrs self |}.

Definition set_obj_attrs (v : SimpleNamespace) (self : CloudObject) : CloudObject :=
  {| _obj_meta := _obj_meta self; _meta_meta := _meta_meta self;
     _obj_path := _obj_path self; _meta_path := _meta_path self;
     _cls := _cls self; _s3 := _s3 self; _obj_attrs := v |}.

(** A method runs over the object it is called on and the world. *)
Abbreviation Obj := (CloudObject * World)%type.

Definition get_self : M Obj CloudObject := fun s => (Return (fst s), s).

Definition assign (f : CloudObject -> CloudObject) : M Obj unit :=
  modify (fun s => (f (fst s), snd s)).

(** A call on the client, made from a method. *)
Definition io {A} (m : M World A) : M Obj A :=
  fun s =>
    match m (snd s) with
    | (r, w') => (r, (fst s, w'))
    end.

(** Runs a method on a local object; the caller continues with the value
    and the object as the method left it. *)
Definition on {A} (self : CloudObject) (m : M Obj A) : M World (A * CloudObject) :=
  fun w =>
    match m (self, w) with
    | (Return a, (self', w')) => (Return (a, self'), w')
    | (Raise e, (_, w')) => (Raise e, w')
    end.

(** Slices.  Modelled from the spec: [CloudObjectSlice] and its
    [_contextualize] live in dataplug.dataslice, which is not under src/.
    A slice is a descriptor with a back-reference to the reference that owns
    it; the back-reference is unset until the slice is contextualized. *)
Record CloudObjectSlice : Type := MkCloudObjectSlice {
  range : Z * Z;
  owner : option CloudObject
}.

Definition _contextualize (s : CloudObjectSlice) (cloud_object : CloudObject)
  : CloudObjectSlice :=
  {| range := range s; owner := Some cloud_object |}.

(** A preprocessor instance: the class it was made from and the arguments
    given to its constructor. *)
Record preprocessor_instance : Type := MkPreprocessorInstance {
  instance_of : pyclass;
  init_args : list string
}.

(** [PreprocessorBackendBase]: the two entry points [preprocess] calls, each
    given the preprocessor instance and the cloud object. *)
Record PreprocessorBackendBase : Type := MkBackend {
  preprocess_batch : preprocessor_instance -> M Obj unit;
  preprocess_map_reduce : preprocessor_instance -> M Obj unit
}.

Section CloudObject.

(** The scheme literal of a location URI ([s3] in the docstring of
    [__init__]). *)
Variable scheme : string.

(** [dataplug.util.load_attributes], which is not under src/: it decodes
    the encoded attributes into a mapping, or raises. *)
Variable load_attributes : string -> result SimpleNamespace.

(** [dataplug.util.split_s3_path], which is not under src/: it reads a
    bucket and a key off a path, or raises.  It is a parser of its own,
    apart from [PureS3Path.from_uri]; nothing is assumed on how the two
    relate. *)
Variable split_s3_path : string -> result (string * string).

(** How [getattr] resolves, on a [SimpleNamespace] holding a given mapping,
    a name of the form [__x__]: these are the names the type of the record
    and [object] define ([__class__], [__dict__], [__doc__], the special
    methods), and the interpreter, not the mapping alone, decides what they
    give. *)
Variable getattr_special : SimpleNamespace -> string -> result Any.

(** Modelled from the spec: the one canonical parse of a location URI,
    [scheme://bucket/key].  The bucket is the first path segment and the key
    is the remainder; there is no parse when the scheme and separator
    pattern does not match. *)
Definition parse_location (uri : string) : option (string * string) :=
  match strip_prefix (scheme ++ "://") uri with
  | None => None
  | Some rest =>
      match split_first_slash rest with
      | None => None
      | Some (b, k) => if bool_decide (b = "") then None else Some (b, k)
      end
  end.

(** Modelled from the spec: [PureS3Path.from_uri] lives in
    dataplug.storage, which is not under src/.  It parses the URI and fails
    on a malformed one. *)
Definition from_uri (uri : string) : result PureS3Path :=
  match parse_location uri with
  | Some (b, k) => Return (from_bucket_key b k)
  | None => Raise (ValueError "MalformedURI")
  end.

(** Modelled from the spec: [dataplug.util.head_object] is not under src/.
    A HEAD lookup by bucket and key returns the fields and the payload of
    the object, or raises [KeyError] when there is none.  The model covers
    the runs in which the transport itself does not fail, and one store,
    whatever the handle. *)
Definition head_object (s3 : PickleableS3ClientProxy) (bucket key : string)
  : M World (Dict * string) :=
  record_call (HeadObject bucket key) ;;
  w <- get ;;
  match objects w !! (bucket, key) with
  | Some o => ret (fields o, payload o)
  | None => raise KeyError
  end.

(** Modelled from the spec: the client's upload of a local file to a
    bucket and key; the client is not under src/.  The call is recorded
    and the object of the file is stored under the bucket and key. *)
Definition upload_file (s3 : PickleableS3ClientProxy)
    (Filename Bucket Key : string) : M World unit :=
  record_call (UploadFile Filename Bucket Key) ;;
  modify (fun w => {| objects := <[(Bucket, Key) := local_files w Filename]> (objects w);
                      local_files := local_files w; calls := calls w |}).

(** [CloudObject.__init__].  It parses the location, derives the location
    of the metadata companion and builds the client handle; it touches
    neither the store nor any other state. *)
Definition CloudObject__init__ (data_type : CloudDataType)
    (s3_uri_path : string) (s3_config : option (gmap string string))
  : result CloudObject :=
  match from_uri s3_uri_path with
  | Raise e => Raise e
  | Return obj_path =>
      let meta_path := from_bucket_key (bucket obj_path ++ ".meta") (key obj_path) in
      let s3_config := default ∅ s3_config in
      Return
        {| _obj_meta := None;
           _meta_meta := None;
           _obj_path := obj_path;
           _meta_path := meta_path;
           _cls := data_type;
           _s3 :=
             {| aws_access_key_id := s3_config !! "aws_access_key_id";
                aws_secret_access_key := s3_config !! "aws_secret_access_key";
                region_name := s3_config !! "region_name";
                endpoint_url := s3_config !! "endpoint_url";
                botocore_config_kwargs := s3_config !! "s3_config_kwargs";
                use_token := s3_config !! "use_token";
                role_arn := s3_config !! "role_arn";
                token_duration_seconds := s3_config !! "token_duration_seconds" |};
           _obj_attrs := ∅ |}
  end.

(** The properties [path], [meta_path], [s3] and [attributes]. *)
Definition path (self : CloudObject) : PureS3Path := _obj_path self.
Definition meta_path (self : CloudObject) : PureS3Path := _meta_path self.
Definition s3 (self : CloudObject) : PickleableS3ClientProxy := _s3 self.
Definition attributes (self : CloudObject) : SimpleNamespace := _obj_attrs self.

(** [fetch].  The [return] statement sits inside the second [if]: when that
    [if] is not taken the method falls off its end and returns [None]. *)
Definition fetch (enforce_obj enforce_meta : bool)
  : M Obj (option (option Dict * option Dict)) :=
  self <- get_self ;;
  when (negb (truthy (_obj_meta self)))
    (try_except_KeyError
       (r <- io (head_object (_s3 self) (bucket (_obj_path self))
                             (key (_obj_path self))) ;;
        assign (set_obj_meta (Some (fst r))))
       (fun e =>
          assign (set_obj_meta None) ;;
          when enforce_obj (raise e))) ;;
  self <- get_self ;;
  if negb (truthy (_meta_meta self)) then
    try_except_KeyError
      (r <- io (head_object (_s3 self) (bucket (_meta_path self))
                            (key (_meta_path self))) ;;
       assign (set_meta_meta (Some (fst r))) ;;
       attrs <- pure (load_attributes (snd r)) ;;
       assign (set_obj_attrs attrs))
      (fun e =>
         assign (set_meta_meta None) ;;
         when enforce_meta (raise e)) ;;
    self <- get_self ;;
    ret (Some (_obj_meta self, _meta_meta self))
  else
    ret None.

(** [exists]. *)
Definition exists_ : M Obj bool :=
  self <- get_self ;;
  when (negb (truthy (_obj_meta self))) (fetch false false ;; ret tt) ;;
  self <- get_self ;;
  ret (truthy (_obj_meta self)).

(** [is_preprocessed]. *)
Definition is_preprocessed : M Obj bool :=
  self <- get_self ;;
  try_except_KeyError
    (io (head_object (s3 self) (bucket (_meta_path self))
                     (key (_meta_path self))) ;;
     ret true)
    (fun _ => ret false).

(** [from_s3]. *)
Definition from_s3 (cloud_object_class : CloudDataType) (s3_path : string)
    (s3_config : option (gmap string string)) (fetch_ : bool)
  : M World CloudObject :=
  co_instance <- pure (CloudObject__init__ cloud_object_class s3_path s3_config) ;;
  if fetch_ then
    r <- on co_instance (fetch true false) ;;
    ret (snd r)
  else
    ret co_instance.

(** [new_from_file]. *)
Definition new_from_file (cloud_object_class : CloudDataType)
    (file_path cloud_path : string) (s3_config : option (gmap string string))
  : M World CloudObject :=
  co_instance <- pure (CloudObject__init__ cloud_object_class cloud_path s3_config) ;;
  r <- on co_instance exists_ ;;
  let co_instance := snd r in
  if fst r then
    raise (Exception "Object already exists")
  else
    bk <- pure (split_s3_path cloud_path) ;;
    upload_file (_s3 co_instance) file_path (fst bk) (snd bk) ;;
    ret co_instance.

(** [preprocess]. *)
Definition preprocess (preprocessor_backend : PreprocessorBackendBase)
    (force : bool) (args : list string) : M Obj unit :=
  preprocessed <- is_preprocessed ;;
  if negb preprocessed && negb force then
    raise (Exception "Object is already preprocessed")
  else
    self <- get_self ;;
    cls <- pure (preprocessor (_cls self)) ;;
    if is_BatchPreprocessor cls then
      cls <- pure (preprocessor (_cls self)) ;;
      let batch_preprocessor := {| instance_of := cls; init_args := args |} in
      preprocess_batch preprocessor_backend batch_preprocessor
    else
      cls <- pure (preprocessor (_cls self)) ;;
      if is_MapReducePreprocessor cls then
        cls <- pure (preprocessor (_cls self)) ;;
        let mapreduce_preprocessor := {| instance_of := cls; init_args := args |} in
        preprocess_map_reduce preprocessor_backend mapreduce_preprocessor
      else
        raise (Exception "This object cannot be preprocessed").

(** [get_attribute]: [getattr] on the attributes record.  A name that is
    not of the form [__x__] is looked up in the mapping the record was built
    from, and [AttributeError] is raised when it is not there; a name of that
    form is resolved as the interpreter resolves it. *)
Definition get_attribute (key : string) : M Obj Any :=
  self <- get_self ;;
  if is_dunder key then pure (getattr_special (_obj_attrs self) key)
  else
    match _obj_attrs self !! key with
    | Some v => ret v
    | None => raise (AttributeError key)
    end.

(** [partition].  The strategy is a callable on the cloud object; the
    slices it returns are contextualized one after the other, in order, and
    the same list is returned. *)
Definition partition (strategy : list string -> M Obj (list CloudObjectSlice))
    (args : list string) : M Obj (list CloudObjectSlice) :=
  slices <- strategy args ;;
  self <- get_self ;;
  ret (map (fun s => _contextualize s self) slices).

End CloudObject.


(** The chain a data type inherits along: the type itself, its parent, the
    parent of its parent, and so on. *)
Fixpoint ancestry (self : CloudDataType) : list CloudDataType :=
  self ::
  match __parent self with
  | Some parent => ancestry parent
  | None => []
  end.

(** The first preprocessor found along a chain of types. *)
Definition first_preprocessor (chain : list CloudDataType) : option pyclass :=
  head (omap __preprocessor chain).

(** ** What a call of [fetch] does, read off the state it starts in *)

(** No object is stored at the location. *)
Definition absent (w : World) (p : PureS3Path) : bool :=
  match objects w !! (bucket p, key p) with
  | Some _ => false
  | None => true
  end.

(** The first [if] of [fetch] raises: the object slot holds no record, the
    lookup finds no object and [enforce_obj] is set. *)
Definition object_step_raises (enforce_obj : bool) (self : CloudObject)
    (w : World) : bool :=
  negb (truthy (_obj_meta self)) && enforce_obj && absent w (_obj_path self).

(** The lookup [fetch] makes for the object slot. *)
Definition object_lookups (self : CloudObject) : list S3Call :=
  if truthy (_obj_meta self) then []
  else [HeadObject (bucket (_obj_path self)) (key (_obj_path self))].

(** The second [if] of [fetch] is reached and taken. *)
Definition companion_probed (enforce_obj : bool) (self : CloudObject)
    (w : World) : bool :=
  negb (truthy (_meta_meta self)) && negb (object_step_raises enforce_obj self w).

(** The lookup [fetch] makes for the metadata slot. *)
Definition companion_lookups (enforce_obj : bool) (self : CloudObject)
    (w : World) : list S3Call :=
  if companion_probed enforce_obj self w
  then [HeadObject (bucket (_meta_path self)) (key (_meta_path self))]
  else [].

(** The attributes record a completed lookup of the companion leaves: the
    decoded mapping when the companion is found and decodes, the record as it
    was otherwise. *)
Definition attributes_after (load_attributes : string -> result SimpleNamespace)
    (self : CloudObject) (w : World) : SimpleNamespace :=
  match objects w !! (bucket (_meta_path self), key (_meta_path self)) with
  | Some c =>
      match load_attributes (payload c) with
      | Return attrs => attrs
      | Raise _ => _obj_attrs self
      end
  | None => _obj_attrs self
  end.

(** The lookup of the companion that [exists] makes through [fetch] runs to
    its end: the companion is absent, or it decodes, or decoding raises the
    [KeyError] that [fetch] catches. *)
Definition companion_completes (load_attributes : string -> result SimpleNamespace)
    (w : World) (meta : PureS3Path) : bool :=
  match objects w !! (bucket meta, key meta) with
  | None => true
  | Some c =>
      match load_attributes (payload c) with
      | Return _ => true
      | Raise KeyError => true
      | Raise _ => false
      end
  end.

(** ** [size], the dispatch of [preprocess], and programs of read-only calls *)

(** What [preprocess] does once its guard is passed: it resolves the
    preprocessor of the type and calls the entry point of the backend for the
    kind of the class, the batch one first. *)
Definition dispatch (preprocessor_backend : PreprocessorBackendBase)
    (args : list string) : M Obj unit :=
  fun s =>
    match preprocessor (_cls (fst s)) with
    | Raise e => (Raise e, s)
    | Return cls =>
        let instance := {| instance_of := cls; init_args := args |} in
        if is_BatchPreprocessor cls
        then preprocess_batch preprocessor_backend instance s
        else if is_MapReducePreprocessor cls
        then preprocess_map_reduce preprocessor_backend instance s
        else (Raise (Exception "This object cannot be preprocessed"), s)
    end.

(** The reference [__init__] builds for a location. *)
Definition new_reference (data_type : CloudDataType) (loc : PureS3Path)
    (s3 : PickleableS3ClientProxy) : CloudObject :=
  {| _obj_meta := None; _meta_meta := None;
     _obj_path := loc;
     _meta_path := from_bucket_key (bucket loc ++ ".meta") (key loc);
     _cls := data_type; _s3 := s3; _obj_attrs := ∅ |}.

(** The calls of a client that only reads through a reference. *)
Inductive method : Type :=
| Fetch (enforce_obj enforce_meta : bool)
| Exists
| IsPreprocessed
| GetAttribute (key : string)
| Size.

Section Size.

Variable load_attributes : string -> result SimpleNamespace.

(** Python's built-in [int] applied to a [str]: the integer the string
    denotes, or nothing when [int] raises [ValueError]. *)
Variable int : string -> option Z.

(** The resolution of the names of the form [__x__] by [getattr]. *)
Variable getattr_special : SimpleNamespace -> string -> result Any.

(** The [size] property.  Subscripting [None] raises [TypeError]; a dict
    without the key raises [KeyError]. *)
Definition size : M Obj Z :=
  self <- get_self ;;
  when (negb (truthy (_obj_meta self)))
    (fetch load_attributes false false ;; ret tt) ;;
  self <- get_self ;;
  match _obj_meta self with
  | None => raise (TypeError "'NoneType' object is not subscriptable")
  | Some d =>
      match d !! "ContentLength" with
      | None => raise KeyError
      | Some v =>
          match int v with
          | Some n => ret n
          | None => raise (ValueError "invalid literal for int() with base 10")
          end
      end
  end.

(** What the last line of [size] evaluates to for a given object slot. *)
Definition content_length (obj_meta : option Dict) : result Z :=
  match obj_meta with
  | None => Raise (TypeError "'NoneType' object is not subscriptable")
  | Some d =>
      match d !! "ContentLength" with
      | None => Raise KeyError
      | Some v =>
          match int v with
          | Some n => Return n
          | None => Raise (ValueError "invalid literal for int() with base 10")
          end
      end
  end.

(** One call of a client, its value dropped. *)
Definition call (m : method) : M Obj unit :=
  match m with
  | Fetch enforce_obj enforce_meta =>
      fetch load_attributes enforce_obj enforce_meta ;; ret tt
  | Exists => exists_ load_attributes ;; ret tt
  | IsPreprocessed => is_preprocessed ;; ret tt
  | GetAttribute key => get_attribute getattr_special key ;; ret tt
  | Size => size ;; ret tt
  end.

(** A client that makes the calls one after the other and carries on after
    an exception, as under a [try] around each call: the state a call leaves
    is the state the next one starts in. *)
Definition run_calls (ms : list method) (s : Obj) : Obj :=
  fold_left (fun s m => snd (call m s)) ms s.

End Size.

(** What a read-only call may change between the state it starts in and the
    state it leaves: nothing in the store, nothing of the location, type and
    handle of the reference; the calls it adds are lookups of the object or of
    the companion; a record a slot holds stays, and with a record in the
    metadata slot the attributes stay. *)
Definition reads_only (s s' : Obj) : Prop :=
  objects (snd s') = objects (snd s) /\
  local_files (snd s') = local_files (snd s) /\
  _obj_path (fst s') = _obj_path (fst s) /\
  _meta_path (fst s') = _meta_path (fst s) /\
  _cls (fst s') = _cls (fst s) /\
  _s3 (fst s') = _s3 (fst s) /\
  (exists trace,
      calls (snd s') = (calls (snd s) ++ trace)%list /\
      Forall (fun c =>
                c = HeadObject (bucket (_obj_path (fst s))) (key (_obj_path (fst s)))
                \/ c = HeadObject (bucket (_meta_path (fst s)))
                                  (key (_meta_path (fst s)))) trace) /\
  (truthy (_obj_meta (fst s)) = true ->
   _obj_meta (fst s') = _obj_meta (fst s)) /\
  (truthy (_meta_meta (fst s)) = true ->
   _meta_meta (fst s') = _meta_meta (fst s) /\
   _obj_attrs (fst s') = _obj_attrs (fst s)).

(** ** Fixtures: a small store and a reference into it *)

Module Fixture.

(** A decoder for [load_attributes]: one payload it understands, every
    other payload is corrupt. *)
Definition decode (encoded : string) : result SimpleNamespace :=
  if bool_decide (encoded = "lines=3") then Return {["lines" := AnyInt 3]}
  else Raise (ValueError "CorruptAttributes").

Definition csv_preprocessor : pyclass :=
  {| class_name := "CSVPreprocessor";
     is_BatchPreprocessor := true; is_MapReducePreprocessor := false |}.

Definition text_type : CloudDataType := CloudDataType__init__ None None.

Definition csv_type : CloudDataType :=
  CloudDataType__init__ (Some csv_preprocessor) None.

(** A type with no preprocessor of its own that inherits from [csv_type]. *)
Definition tsv_type : CloudDataType := CloudDataType__init__ None (Some csv_type).

Definition data_object : S3Object :=
  {| fields := {["ContentLength" := "10"]}; payload := "" |}.

Definition companion_object : S3Object :=
  {| fields := {["ContentLength" := "7"]}; payload := "lines=3" |}.

Definition corrupt_companion : S3Object :=
  {| fields := {["ContentLength" := "3"]}; payload := "???" |}.

Definition world_of (objs : gmap (string * string) S3Object) : World :=
  {| objects := objs; local_files := fun _ => data_object; calls := [] |}.

Definition empty_store : World := world_of ∅.

Definition data_only : World :=
  world_of {[("bucket1", "data.csv") := data_object]}.

Definition companion_only : World :=
  world_of {[("bucket1.meta", "data.csv") := companion_object]}.

Definition data_and_companion : World :=
  world_of {[("bucket1", "data.csv") := data_object;
             ("bucket1.meta", "data.csv") := companion_object]}.

Definition data_and_corrupt_companion : World :=
  world_of {[("bucket1", "data.csv") := data_object;
             ("bucket1.meta", "data.csv") := corrupt_companion]}.

Definition no_credentials : PickleableS3ClientProxy :=
  {| aws_access_key_id := None; aws_secret_access_key := None;
     region_name := None; endpoint_url := None;
     botocore_config_kwargs := None; use_token := None; role_arn := None;
     token_duration_seconds := None |}.

(** The reference [__init__] builds for ["store://bucket1/data.csv"]. *)
Definition reference : CloudObject :=
  {| _obj_meta := None; _meta_meta := None;
     _obj_path := {| bucket := "bucket1"; key := "data.csv" |};
     _meta_path := {| bucket := "bucket1.meta"; key := "data.csv" |};
     _cls := csv_type; _s3 := no_credentials; _obj_attrs := ∅ |}.

(** A backend whose two entry points write the metadata companion of the
    cloud object; the payload names the entry point and the class of the
    preprocessor. *)
Definition write_companion (encoded : string) : M Obj unit :=
  self <- get_self ;;
  io (modify (fun w =>
        {| objects := <[(bucket (_meta_path self), key (_meta_path self))
                        := {| fields := {["ContentLength" := "7"]};
                              payload := encoded |}]> (objects w);
           local_files := local_files w; calls := calls w |})).

Definition backend : PreprocessorBackendBase :=
  {| preprocess_batch :=
       fun p => write_companion ("batch " ++ class_name (instance_of p));
     preprocess_map_reduce :=
       fun p => write_companion ("map_reduce " ++ class_name (instance_of p)) |}.

(** A strategy that cuts the object into three slices. *)
Definition three_slices : list CloudObjectSlice :=
  [ {| range := (0, 3)%Z; owner := None |};
    {| range := (4, 7)%Z; owner := None |};
    {| range := (8, 9)%Z; owner := None |} ].

Definition strategy (args : list string) : M Obj (list CloudObjectSlice) :=
  ret three_slices.

(** A decoder that raises [KeyError] on what it does not understand. *)
Definition decode_or_KeyError (encoded : string) : result SimpleNamespace :=
  if bool_decide (encoded = "lines=3") then Return {["lines" := AnyInt 3]}
  else Raise KeyError.

(** A [split_s3_path] that reads the bucket and the key as the fixtures'
    location parse does. *)
Definition split_path (path : string) : result (string * string) :=
  match parse_location "store" path with
  | Some (b, k) => Return (b, k)
  | None => Raise (ValueError "MalformedURI")
  end.

(** A [split_s3_path] that keeps a leading slash of the key the location
    parse drops: the two parsers then read one path differently. *)
Definition split_path_raw (path : string) : result (string * string) :=
  match parse_location "store" path with
  | Some (b, k) => Return (b, "/" ++ k)
  | None => Raise (ValueError "MalformedURI")
  end.

(** A resolution of the special names for the fixtures: [__doc__] gives a
    documentation string, left empty here; the other special names are left
    out. *)
Definition special (attrs : SimpleNamespace) (name : string) : result Any :=
  if bool_decide (name = "__doc__") then Return (AnyStr "")
  else Raise (AttributeError name).

(** [int] on the strings the fixtures use. *)
Definition parse_int (v : string) : option Z :=
  if bool_decide (v = "10") then Some 10%Z
  else if bool_decide (v = "7") then Some 7%Z
  else None.

Definition mapreduce_preprocessor : pyclass :=
  {| class_name := "GenomePreprocessor";
     is_BatchPreprocessor := false; is_MapReducePreprocessor := true |}.


(** A class that derives from neither. *)
Definition plain_class : pyclass :=
  {| class_name := "Plain";
     is_BatchPreprocessor := false; is_MapReducePreprocessor := false |}.


Definition plain_type : CloudDataType :=
  CloudDataType__init__ (Some plain_class) None.

(** A reference whose type has no preprocessor, and two whose preprocessor
    is of an unusual kind. *)
Definition text_reference : CloudObject :=
  new_reference text_type {| bucket := "bucket1"; key := "data.csv" |} no_credentials.


Definition plain_reference : CloudObject :=
  new_reference plain_type {| bucket := "bucket1"; key := "data.csv" |} no_credentials.

(** A companion whose fields lack the content length. *)
Definition data_without_length : S3Object :=
  {| fields := {["ETag" := "abc"]}; payload := "" |}.

Definition data_without_length_only : World :=
  world_of {[("bucket1", "data.csv") := data_without_length]}.

End Fixture.

(** * Properties *)

(** ** Cloud data types *)

Lemma preprocessor_unfold (self : CloudDataType) :
  preprocessor self =
    match __preprocessor self with
    | Some p => Return p
    | None =>
        match __parent self with
        | Some parent => preprocessor parent
        | None => Raise (Exception "There is not preprocessor")
        end
    end.
Proof. destruct self; reflexivity. Qed.

Lemma ancestry_unfold (self : CloudDataType) :
  ancestry self =
    self :: match __parent self with
            | Some parent => ancestry parent
            | None => []
            end.
Proof. destruct self; reflexivity. Qed.

(** Resolution returns the first preprocessor along the ancestry, and raises
    when the ancestry has none. *)
Lemma preprocessor_first (self : CloudDataType) :
  preprocessor self =
    match first_preprocessor (ancestry self) with
    | Some p => Return p
    | None => Raise (Exception "There is not preprocessor")
    end.
Proof.
  revert self.
  fix IH 1.
  intros [bound own parent].
  rewrite preprocessor_unfold, ancestry_unfold.
  unfold first_preprocessor. simpl.
  destruct own as [p|]; simpl; [reflexivity|].
  destruct parent as [parent|]; simpl; [|reflexivity].
  apply IH.
Qed.

(** C4.  Preprocessor resolution returns the type's own preprocessor when
    one is set; otherwise, when a parent is set, it is the resolution of the
    parent, and so, up the chain, the first preprocessor set in the ancestry;
    with neither set it raises the no-preprocessor exception. *)
Theorem preprocessor_resolution :
  (forall bound p parent,
      preprocessor (MkCloudDataType bound (Some p) parent) = Return p) /\
  (forall bound parent,
      preprocessor (MkCloudDataType bound None (Some parent)) = preprocessor parent) /\
  (forall bound,
      preprocessor (MkCloudDataType bound None None)
      = Raise (Exception "There is not preprocessor")) /\
  (forall self,
      preprocessor self =
        match first_preprocessor (ancestry self) with
        | Some p => Return p
        | None => Raise (Exception "There is not preprocessor")
        end).
Proof.
  split; [reflexivity|].
  split; [reflexivity|].
  split; [reflexivity|].
  exact preprocessor_first.
Qed.

Example preprocessor_inherited :
  preprocessor Fixture.tsv_type = Return Fixture.csv_preprocessor.
Proof. reflexivity. Qed.

Example preprocessor_missing :
  preprocessor Fixture.text_type = Raise (Exception "There is not preprocessor").
Proof. reflexivity. Qed.

(** C5.  Binding is single-assignment.  On a data type with no class bound,
    binding a class returns the data type with that class recorded and
    nothing else changed; on a data type with a class bound, a call with any
    argument raises and leaves the data type, and so its bound class, as it
    was. *)
Theorem call_binds_once :
  (forall own parent c,
      CloudDataType__call__ (ClassObject c) (MkCloudDataType None own parent)
      = (Return (MkCloudDataType (Some (ClassObject c)) own parent),
         MkCloudDataType (Some (ClassObject c)) own parent)) /\
  (forall bound own parent cls,
      CloudDataType__call__ cls (MkCloudDataType (Some bound) own parent)
      = (Raise (if isclass cls
                then Exception ("Can't overwrite decorator, now is "
                                ++ repr_object bound)
                else TypeError ("CloudObject expected to use with class type, not "
                                ++ repr_type cls)),
         MkCloudDataType (Some bound) own parent)).
Proof.
  split.
  - reflexivity.
  - intros bound own parent cls.
    destruct cls as [c|t]; reflexivity.
Qed.

Example call_twice :
  let bind_csv := CloudDataType__call__ (ClassObject Fixture.csv_preprocessor) in
  let first := bind_csv Fixture.text_type in
  co_class (snd first) = Some (ClassObject Fixture.csv_preprocessor) /\
  bind_csv (snd first)
  = (Raise (Exception "Can't overwrite decorator, now is <class 'CSVPreprocessor'>"),
     snd first).
Proof. split; reflexivity. Qed.

(** ** The metadata cache: [fetch] *)

Section Fetch.

Variable load_attributes : string -> result SimpleNamespace.
Variables enforce_obj enforce_meta : bool.
Variable self : CloudObject.
Variable w : World.

Local Abbreviation out := (fetch load_attributes enforce_obj enforce_meta (self, w)).
Local Abbreviation self' := (fst (snd out)).
Local Abbreviation w' := (snd (snd out)).

(** One run through the branches of [fetch]: each slot holds a record or
    not, each lookup finds its object or not, the payload decodes or raises.
    The lemmas below are its parts. *)
Lemma fetch_outcome :
  (calls w' = (calls w ++ object_lookups self
                 ++ companion_lookups enforce_obj self w)%list) /\
  (objects w' = objects w /\ local_files w' = local_files w) /\
  (_obj_path self' = _obj_path self /\ _meta_path self' = _meta_path self /\
   _cls self' = _cls self /\ _s3 self' = _s3 self) /\
  (_obj_attrs self' =
     if companion_probed enforce_obj self w
     then attributes_after load_attributes self w
     else _obj_attrs self) /\
  (_obj_meta self' =
     if truthy (_obj_meta self) then _obj_meta self
     else fields <$> objects w !! (bucket (_obj_path self), key (_obj_path self))) /\
  (_meta_meta self' =
     if companion_probed enforce_obj self w then
       match objects w !! (bucket (_meta_path self), key (_meta_path self)) with
       | Some c =>
           match load_attributes (payload c) with
           | Raise KeyError => None
           | _ => Some (fields c)
           end
       | None => None
       end
     else _meta_meta self) /\
  (fst out =
     if object_step_raises enforce_obj self w then Raise KeyError
     else if truthy (_meta_meta self) then Return None
     else
       match objects w !! (bucket (_meta_path self), key (_meta_path self)) with
       | Some c =>
           match load_attributes (payload c) with
           | Return _ => Return (Some (_obj_meta self', _meta_meta self'))
           | Raise KeyError =>
               if enforce_meta then Raise KeyError
               else Return (Some (_obj_meta self', _meta_meta self'))
           | Raise e => Raise e
           end
       | None =>
           if enforce_meta then Raise KeyError
           else Return (Some (_obj_meta self', _meta_meta self'))
       end).
Proof.
  destruct self as [om mm op mp cls cl attrs0], w as [objs files trace].
  cbv [fetch bind when try_except_KeyError io assign modify get_self get ret
    raise pure head_object record_call
    object_lookups companion_lookups companion_probed object_step_raises
    attributes_after absent set_obj_meta set_meta_meta set_obj_attrs fst snd
    _obj_meta _meta_meta _obj_path _meta_path _cls _s3 _obj_attrs
    objects local_files calls].
  simpl.
  destruct enforce_obj, enforce_meta;
    (destruct (truthy om); simpl;
     [| destruct (objs !! (bucket op, key op)) as [o|]; simpl ]);
    (destruct (truthy mm); simpl;
     [| destruct (objs !! (bucket mp, key mp)) as [c|]; simpl;
        [ destruct (load_attributes (payload c)) as [attrs|[]]; simpl |] ]);
    rewrite <- ?app_assoc, ?app_nil_r; repeat split; reflexivity.
Qed.

(** The calls [fetch] makes are the lookup for the object slot, when that
    slot holds no record, then the lookup for the metadata slot, when that
    slot holds no record and the first step did not raise. *)
Lemma fetch_calls :
  calls w' = (calls w ++ object_lookups self ++ companion_lookups enforce_obj self w)%list.
Proof. exact (proj1 fetch_outcome). Qed.

(** [fetch] only reads the store. *)
Lemma fetch_store :
  objects w' = objects w /\ local_files w' = local_files w.
Proof. exact (proj1 (proj2 fetch_outcome)). Qed.

(** [fetch] assigns to the two slots and to the attributes only. *)
Lemma fetch_frame :
  _obj_path self' = _obj_path self /\ _meta_path self' = _meta_path self /\
  _cls self' = _cls self /\ _s3 self' = _s3 self.
Proof. exact (proj1 (proj2 (proj2 fetch_outcome))). Qed.

(** The attributes after [fetch]. *)
Lemma fetch_attrs :
  _obj_attrs self' =
    if companion_probed enforce_obj self w
    then attributes_after load_attributes self w
    else _obj_attrs self.
Proof. exact (proj1 (proj2 (proj2 (proj2 fetch_outcome)))). Qed.

(** The object slot after [fetch]: a record it held stays; otherwise it
    holds what the lookup found, [None] when it found nothing. *)
Lemma fetch_obj_meta :
  _obj_meta self' =
    if truthy (_obj_meta self) then _obj_meta self
    else fields <$> objects w !! (bucket (_obj_path self), key (_obj_path self)).
Proof. exact (proj1 (proj2 (proj2 (proj2 (proj2 fetch_outcome))))). Qed.

(** The metadata slot after [fetch]: a lookup that finds the companion stores
    its fields, and a decoder that raises [KeyError] has them reset to [None]
    by the handler. *)
Lemma fetch_meta_meta :
  _meta_meta self' =
    if companion_probed enforce_obj self w then
      match objects w !! (bucket (_meta_path self), key (_meta_path self)) with
      | Some c =>
          match load_attributes (payload c) with
          | Raise KeyError => None
          | _ => Some (fields c)
          end
      | None => None
      end
    else _meta_meta self.
Proof. exact (proj1 (proj2 (proj2 (proj2 (proj2 (proj2 fetch_outcome)))))). Qed.

(** What [fetch] returns.  The pair is returned only from inside the second
    [if]; with a record in the metadata slot the call returns [None]. *)
Lemma fetch_result :
  fst out =
    if object_step_raises enforce_obj self w then Raise KeyError
    else if truthy (_meta_meta self) then Return None
    else
      match objects w !! (bucket (_meta_path self), key (_meta_path self)) with
      | Some c =>
          match load_attributes (payload c) with
          | Return _ => Return (Some (_obj_meta self', _meta_meta self'))
          | Raise KeyError =>
              if enforce_meta then Raise KeyError
              else Return (Some (_obj_meta self', _meta_meta self'))
          | Raise e => Raise e
          end
      | None =>
          if enforce_meta then Raise KeyError
          else Return (Some (_obj_meta self', _meta_meta self'))
      end.
Proof. exact (proj2 (proj2 (proj2 (proj2 (proj2 (proj2 fetch_outcome)))))). Qed.

End Fetch.

(** C8.  The attributes record is never partially populated.  After any call
    of [fetch] one of three things holds: the companion was looked up, found
    and decoded, and the record is the decoded mapping; or the companion was
    looked up and the lookup or the decoding failed, and the record is as it
    was; or the companion was not looked up, and the record is as it was. *)
Theorem fetch_attributes_all_or_nothing
    (load_attributes : string -> result SimpleNamespace)
    (enforce_obj enforce_meta : bool) (self : CloudObject) (w : World) :
  let self' := fst (snd (fetch load_attributes enforce_obj enforce_meta (self, w))) in
  let companion := objects w !! (bucket (_meta_path self), key (_meta_path self)) in
  (exists c attrs,
      companion_probed enforce_obj self w = true /\
      companion = Some c /\ load_attributes (payload c) = Return attrs /\
      _obj_attrs self' = attrs)
  \/ (companion_probed enforce_obj self w = true /\
      (companion = None \/
       exists c e, companion = Some c /\ load_attributes (payload c) = Raise e) /\
      _obj_attrs self' = _obj_attrs self)
  \/ (companion_probed enforce_obj self w = false /\
      _obj_attrs self' = _obj_attrs self).
Proof.
  intros self' companion. subst self'.
  rewrite fetch_attrs. unfold attributes_after. subst companion.
  destruct (companion_probed enforce_obj self w).
  - destruct (objects w !! (bucket (_meta_path self), key (_meta_path self)))
      as [c|].
    + destruct (load_attributes (payload c)) as [attrs|e] eqn:Hload.
      * left. exists c, attrs. auto.
      * right. left. split; [reflexivity|]. split; [|reflexivity].
        right. exists c, e. auto.
    + right. left. auto.
  - right. right. auto.
Qed.

Example fetch_decodes_attributes :
  _obj_attrs (fst (snd (fetch Fixture.decode false false
                          (Fixture.reference, Fixture.data_and_companion))))
  = {["lines" := AnyInt 3]}.
Proof. vm_compute. reflexivity. Qed.

Example fetch_corrupt_keeps_attributes :
  fetch Fixture.decode false false
    (Fixture.reference, Fixture.data_and_corrupt_companion)
  = (Raise (ValueError "CorruptAttributes"),
     (set_meta_meta (Some (fields Fixture.corrupt_companion))
        (set_obj_meta (Some (fields Fixture.data_object)) Fixture.reference),
      {| objects := objects Fixture.data_and_corrupt_companion;
         local_files := local_files Fixture.data_and_corrupt_companion;
         calls := [HeadObject "bucket1" "data.csv";
                   HeadObject "bucket1.meta" "data.csv"] |})).
Proof. vm_compute. reflexivity. Qed.

(** C2, as the claim states it, fails.  The reference points at a location
    where the store holds neither object.  The first [fetch] resolves both
    slots to absent and returns the pair of two [None]s; the second [fetch]
    looks both objects up again, so each slot has been looked up twice. *)
Lemma fetch_twice_absent_looks_up_twice :
  let first := fetch Fixture.decode false false
                 (Fixture.reference, Fixture.empty_store) in
  let second := fetch Fixture.decode false false (snd first) in
  fst first = Return (Some (None, None)) /\
  calls (snd (snd second))
  = [HeadObject "bucket1" "data.csv"; HeadObject "bucket1.meta" "data.csv";
     HeadObject "bucket1" "data.csv"; HeadObject "bucket1.meta" "data.csv"] /\
  ~ (head_count "bucket1" "data.csv" (calls (snd (snd second))) <= 1) /\
  ~ (head_count "bucket1.meta" "data.csv" (calls (snd (snd second))) <= 1).
Proof.
  vm_compute. repeat split; try reflexivity; intros H; inversion H as [|? H'];
    inversion H'.
Qed.

(** C2, amended.  A slot that holds a record after a first [fetch], that is
    a slot resolved to present, is not looked up by a second [fetch]: the
    calls of the second [fetch] are then the lookups of the other slot alone,
    and none when both slots hold a record.  In particular, on a reference
    with two empty slots whose object and companion are both stored with
    fields and whose payload decodes, two calls of [fetch] make one lookup
    per slot in total. *)
Theorem fetch_skips_present_slots
    (load_attributes : string -> result SimpleNamespace)
    (enforce_obj enforce_meta enforce_obj' enforce_meta' : bool)
    (self : CloudObject) (w : World) :
  let first := fetch load_attributes enforce_obj enforce_meta (self, w) in
  let second := fetch load_attributes enforce_obj' enforce_meta' (snd first) in
  let self1 := fst (snd first) in
  let w1 := snd (snd first) in
  let w2 := snd (snd second) in
  (truthy (_obj_meta self1) = true ->
     calls w2 = (calls w1 ++ companion_lookups enforce_obj' self1 w1)%list) /\
  (truthy (_meta_meta self1) = true ->
     calls w2 = (calls w1 ++ object_lookups self1)%list) /\
  (truthy (_obj_meta self1) = true -> truthy (_meta_meta self1) = true ->
     calls w2 = calls w1) /\
  (forall o c attrs,
     _obj_meta self = None -> _meta_meta self = None ->
     objects w !! (bucket (_obj_path self), key (_obj_path self)) = Some o ->
     fields o <> ∅ ->
     objects w !! (bucket (_meta_path self), key (_meta_path self)) = Some c ->
     fields c <> ∅ ->
     load_attributes (payload c) = Return attrs ->
     calls w2
     = (calls w ++ [HeadObject (bucket (_obj_path self)) (key (_obj_path self));
                    HeadObject (bucket (_meta_path self)) (key (_meta_path self))])%list).
Proof.
  intros first second self1 w1 w2.
  assert (Hsecond : calls w2 = (calls w1 ++ object_lookups self1
                                 ++ companion_lookups enforce_obj' self1 w1)%list).
  { subst w2 second. rewrite (surjective_pairing (snd first)).
    apply fetch_calls. }
  assert (Hobj : truthy (_obj_meta self1) = true -> object_lookups self1 = []).
  { intros H. unfold object_lookups. rewrite H. reflexivity. }
  assert (Hmeta : truthy (_meta_meta self1) = true ->
                  companion_lookups enforce_obj' self1 w1 = []).
  { intros H. unfold companion_lookups, companion_probed. rewrite H. reflexivity. }
  split; [|split; [|split]].
  - intros H. rewrite Hsecond, (Hobj H). reflexivity.
  - intros H. rewrite Hsecond, (Hmeta H), app_nil_r. reflexivity.
  - intros H1 H2. rewrite Hsecond, (Hobj H1), (Hmeta H2), app_nil_r. reflexivity.
  - intros o c attrs Hom Hmm Ho Hfo Hc Hfc Hload.
    assert (Hom1 : truthy (_obj_meta self1) = true).
    { subst self1 first. rewrite fetch_obj_meta, Hom, Ho. simpl.
      rewrite bool_decide_eq_false_2; auto. }
    assert (Hprobed : companion_probed enforce_obj self w = true).
    { unfold companion_probed, object_step_raises, absent.
      rewrite Hom, Hmm, Ho. simpl. rewrite andb_false_r. reflexivity. }
    assert (Hmm1 : truthy (_meta_meta self1) = true).
    { subst self1 first. rewrite fetch_meta_meta, Hprobed, Hc, Hload. simpl.
      rewrite bool_decide_eq_false_2; auto. }
    rewrite Hsecond, (Hobj Hom1), (Hmeta Hmm1), app_nil_r. simpl.
    subst w1 first. rewrite fetch_calls.
    unfold object_lookups, companion_lookups. rewrite Hprobed, Hom. reflexivity.
Qed.

Lemma fetch_skips_present_slots_witness :
  let first := fetch Fixture.decode false false
                 (Fixture.reference, Fixture.data_and_companion) in
  let second := fetch Fixture.decode false false (snd first) in
  calls (snd (snd second))
  = (calls (snd (snd first))
     ++ companion_lookups false (fst (snd first)) (snd (snd first)))%list /\
  calls (snd (snd second))
  = (calls (snd (snd first)) ++ object_lookups (fst (snd first)))%list /\
  calls (snd (snd second)) = calls (snd (snd first)) /\
  calls (snd (snd second))
  = [HeadObject "bucket1" "data.csv"; HeadObject "bucket1.meta" "data.csv"].
Proof.
  destruct (fetch_skips_present_slots Fixture.decode false false false false
              Fixture.reference Fixture.data_and_companion)
    as [Hobj [Hmeta [Hboth Htwice]]].
  split; [apply Hobj; vm_compute; reflexivity|].
  split; [apply Hmeta; vm_compute; reflexivity|].
  split; [apply Hboth; vm_compute; reflexivity|].
  apply (Htwice Fixture.data_object Fixture.companion_object {["lines" := AnyInt 3]});
    vm_compute; first [reflexivity | discriminate].
Defined.

(** With a record in the metadata slot, a call of [fetch] that does not
    raise returns [None]: the [return] of the pair is not reached. *)
Lemma fetch_returns_None_on_cached_companion
    (load_attributes : string -> result SimpleNamespace)
    (enforce_obj enforce_meta : bool) (self : CloudObject) (w : World) :
  truthy (_meta_meta self) = true ->
  object_step_raises enforce_obj self w = false ->
  fst (fetch load_attributes enforce_obj enforce_meta (self, w)) = Return None.
Proof.
  intros Hmm Hraise. rewrite fetch_result, Hraise, Hmm. reflexivity.
Qed.

(** C3.  The object and its companion are both stored.  The first [fetch] on
    a new reference returns the pair of the two metadata records.  A second
    [fetch] on the same reference does not raise and returns [None], not the
    pair, although neither object is absent. *)
Theorem fetch_again_returns_None :
  let first := fetch Fixture.decode false false
                 (Fixture.reference, Fixture.data_and_companion) in
  let second := fetch Fixture.decode false false (snd first) in
  fst first = Return (Some (Some {["ContentLength" := "10"]},
                            Some {["ContentLength" := "7"]})) /\
  fst second = Return None /\
  fst second <> Return (Some (_obj_meta (fst (snd second)),
                              _meta_meta (fst (snd second)))).
Proof.
  intros first second.
  split; [vm_compute; reflexivity|].
  assert (Hsecond : fst second = Return None).
  { subst second. rewrite (surjective_pairing (snd first)).
    apply fetch_returns_None_on_cached_companion; vm_compute; reflexivity. }
  split; [exact Hsecond|].
  rewrite Hsecond. discriminate.
Qed.

(** ** [exists] *)

(** [exists] is a [fetch] with no flag set when the object slot holds no
    record, and no call at all otherwise. *)
Lemma exists_unfold
    (load_attributes : string -> result SimpleNamespace)
    (self : CloudObject) (w : World) :
  exists_ load_attributes (self, w) =
    if truthy (_obj_meta self) then (Return true, (self, w))
    else
      let out := fetch load_attributes false false (self, w) in
      match fst out with
      | Return _ => (Return (truthy (_obj_meta (fst (snd out)))), snd out)
      | Raise e => (Raise e, snd out)
      end.
Proof.
  unfold exists_ at 1.
  cbv [bind when get_self ret fst snd].
  destruct (truthy (_obj_meta self)) eqn:Hom; simpl.
  - rewrite Hom. reflexivity.
  - destruct (fetch load_attributes false false (self, w)) as [[r|e] s1];
      reflexivity.
Qed.

(** [exists] leaves the location, the type and the store handle of the
    reference alone, and only reads the store. *)
Lemma exists_frame
    (load_attributes : string -> result SimpleNamespace)
    (self : CloudObject) (w : World) :
  let out := exists_ load_attributes (self, w) in
  _obj_path (fst (snd out)) = _obj_path self /\
  _meta_path (fst (snd out)) = _meta_path self /\
  _cls (fst (snd out)) = _cls self /\
  _s3 (fst (snd out)) = _s3 self /\
  objects (snd (snd out)) = objects w.
Proof.
  intros out. subst out. rewrite exists_unfold.
  destruct (truthy (_obj_meta self)); [simpl; auto 6|].
  pose proof (fetch_frame load_attributes false false self w) as Hframe.
  pose proof (fetch_store load_attributes false false self w) as [Hstore _].
  cbv zeta in *.
  destruct (fst (fetch load_attributes false false (self, w)));
    simpl; destruct Hframe as (? & ? & ? & ?); auto 6.
Qed.

(** When the object slot holds no record, [exists] leaves the state that its
    [fetch] leaves. *)
Lemma exists_state
    (load_attributes : string -> result SimpleNamespace)
    (self : CloudObject) (w : World) :
  truthy (_obj_meta self) = false ->
  snd (exists_ load_attributes (self, w))
  = snd (fetch load_attributes false false (self, w)).
Proof.
  intros Hom. rewrite exists_unfold, Hom. cbv zeta.
  destruct (fst (fetch load_attributes false false (self, w))); reflexivity.
Qed.

(** C10, as the claim states it, fails, in two ways.  First: a reference
    whose object is absent and whose companion is stored has, after a
    [fetch], no record in the object slot and a record in the metadata slot;
    [exists] on it looks the object up again and makes no lookup for the
    companion.  Second: with a companion stored whose payload does not
    decode, [exists] on a new reference raises; the attributes record is not
    replaced. *)
Lemma exists_does_not_always_probe_companion :
  (let cached := snd (fetch Fixture.decode false false
                        (Fixture.reference, Fixture.companion_only)) in
   let out := exists_ Fixture.decode cached in
   truthy (_obj_meta (fst cached)) = false /\
   calls (snd cached)
   = [HeadObject "bucket1" "data.csv"; HeadObject "bucket1.meta" "data.csv"] /\
   fst out = Return false /\
   calls (snd (snd out)) = (calls (snd cached) ++ [HeadObject "bucket1" "data.csv"])%list) /\
  (let out := exists_ Fixture.decode
                (Fixture.reference, Fixture.data_and_corrupt_companion) in
   objects Fixture.data_and_corrupt_companion !! ("bucket1.meta", "data.csv")
   = Some Fixture.corrupt_companion /\
   fst out = Raise (ValueError "CorruptAttributes") /\
   _obj_attrs (fst (snd out)) = _obj_attrs Fixture.reference).
Proof. vm_compute. repeat split; reflexivity. Qed.

(** C10, amended.  On a reference whose two slots both hold no record,
    [exists] makes the lookup for the object and then a lookup for the
    metadata companion; when the companion is stored and its payload decodes,
    the metadata slot holds the companion's fields and the attributes record
    is the decoded mapping afterwards.  The location, the companion location,
    the type and the store handle of the reference are as before, and the
    store holds what it held. *)
Theorem exists_probes_companion
    (load_attributes : string -> result SimpleNamespace)
    (self : CloudObject) (w : World) :
  truthy (_obj_meta self) = false ->
  truthy (_meta_meta self) = false ->
  let out := exists_ load_attributes (self, w) in
  let self' := fst (snd out) in
  let w' := snd (snd out) in
  calls w'
  = (calls w ++ [HeadObject (bucket (_obj_path self)) (key (_obj_path self));
                 HeadObject (bucket (_meta_path self)) (key (_meta_path self))])%list /\
  (forall c attrs,
      objects w !! (bucket (_meta_path self), key (_meta_path self)) = Some c ->
      load_attributes (payload c) = Return attrs ->
      _meta_meta self' = Some (fields c) /\ _obj_attrs self' = attrs) /\
  _obj_path self' = _obj_path self /\
  _meta_path self' = _meta_path self /\
  _cls self' = _cls self /\
  _s3 self' = _s3 self /\
  objects w' = objects w.
Proof.
  intros Hom Hmm out self' w'.
  assert (Hprobed : companion_probed false self w = true).
  { unfold companion_probed, object_step_raises. rewrite Hom, Hmm. reflexivity. }
  split; [|split].
  - subst w' out. rewrite (exists_state _ _ _ Hom), fetch_calls.
    unfold object_lookups, companion_lookups. rewrite Hom, Hprobed. reflexivity.
  - intros c attrs Hc Hload. subst self' out.
    rewrite (exists_state _ _ _ Hom), fetch_meta_meta, fetch_attrs, Hprobed.
    unfold attributes_after. rewrite Hc, Hload. auto.
  - apply exists_frame.
Qed.

Lemma exists_probes_companion_witness :
  let out := exists_ Fixture.decode
               (Fixture.reference, Fixture.data_and_companion) in
  calls (snd (snd out))
  = [HeadObject "bucket1" "data.csv"; HeadObject "bucket1.meta" "data.csv"] /\
  _meta_meta (fst (snd out)) = Some {["ContentLength" := "7"]} /\
  _obj_attrs (fst (snd out)) = {["lines" := AnyInt 3]}.
Proof.
  destruct (exists_probes_companion Fixture.decode Fixture.reference
              Fixture.data_and_companion eq_refl eq_refl)
    as (Hcalls & Hfill & _).
  split; [exact Hcalls|].
  apply (Hfill Fixture.companion_object); vm_compute; reflexivity.
Defined.

(** [exists] on a reference whose two slots hold no record: the two lookups
    it makes, and what it returns or raises. *)
Lemma exists_on_empty_slots
    (load_attributes : string -> result SimpleNamespace)
    (self : CloudObject) (w : World) :
  truthy (_obj_meta self) = false ->
  truthy (_meta_meta self) = false ->
  let out := exists_ load_attributes (self, w) in
  let found :=
    truthy (fields <$> objects w !! (bucket (_obj_path self), key (_obj_path self))) in
  calls (snd (snd out))
  = (calls w ++ [HeadObject (bucket (_obj_path self)) (key (_obj_path self));
                 HeadObject (bucket (_meta_path self)) (key (_meta_path self))])%list /\
  fst out =
    match objects w !! (bucket (_meta_path self), key (_meta_path self)) with
    | Some c =>
        match load_attributes (payload c) with
        | Return _ => Return found
        | Raise KeyError => Return found
        | Raise e => Raise e
        end
    | None => Return found
    end.
Proof.
  intros Hom Hmm out found.
  assert (Hprobed : companion_probed false self w = true).
  { unfold companion_probed, object_step_raises. rewrite Hom, Hmm. reflexivity. }
  split.
  - subst out. rewrite (exists_state _ _ _ Hom), fetch_calls.
    unfold object_lookups, companion_lookups. rewrite Hom, Hprobed. reflexivity.
  - subst out found. rewrite exists_unfold, Hom. cbv zeta.
    rewrite fetch_result, fetch_obj_meta, Hom, Hmm.
    unfold object_step_raises. rewrite Hom. simpl.
    destruct (objects w !! (bucket (_meta_path self), key (_meta_path self)))
      as [c|]; [|reflexivity].
    destruct (load_attributes (payload c)) as [attrs|[]]; reflexivity.
Qed.


(** ** [new_from_file] *)

(** What [__init__] returns for a URI that parses. *)
Lemma init_from_uri (scheme : string) (data_type : CloudDataType)
    (uri : string) (s3_config : option (gmap string string)) (loc : PureS3Path) :
  from_uri scheme uri = Return loc ->
  exists co,
    CloudObject__init__ scheme data_type uri s3_config = Return co /\
    _obj_meta co = None /\ _meta_meta co = None /\
    _obj_path co = loc /\
    _meta_path co = {| bucket := bucket loc ++ ".meta"; key := key loc |} /\
    _cls co = data_type /\ _obj_attrs co = ∅.
Proof.
  intros Huri. unfold CloudObject__init__. rewrite Huri.
  eexists. split; [reflexivity|]. simpl. auto 7.
Qed.




(** ** [is_preprocessed] and [preprocess] *)

(** [is_preprocessed] makes one lookup for the companion, whatever the slots
    hold, and returns whether the companion is stored. *)
Lemma is_preprocessed_probe (self : CloudObject) (w : World) :
  is_preprocessed (self, w)
  = (Return (negb (absent w (_meta_path self))),
     (self,
      {| objects := objects w; local_files := local_files w;
         calls := calls w ++ [HeadObject (bucket (_meta_path self))
                                         (key (_meta_path self))] |})).
Proof.
  destruct self as [om mm op mp cls cl attrs0], w as [objs files trace].
  cbv [is_preprocessed bind try_except_KeyError io get_self ret raise get modify
    head_object record_call absent s3 fst snd].
  simpl.
  destruct (objs !! (bucket mp, key mp)); reflexivity.
Qed.

(** The guard of [preprocess] raises exactly when the object is not
    preprocessed and [force] is not set. *)
Lemma preprocess_guard (preprocessor_backend : PreprocessorBackendBase)
    (args : list string) (self : CloudObject) (w : World) :
  fst (is_preprocessed (self, w)) = Return false ->
  fst (preprocess preprocessor_backend false args (self, w))
  = Raise (Exception "Object is already preprocessed").
Proof.
  rewrite is_preprocessed_probe. simpl. intros [= Habsent].
  unfold preprocess, bind. rewrite is_preprocessed_probe.
  destruct (absent w (_meta_path self)); [reflexivity|discriminate].
Qed.

(** Past the guard, [preprocess] resolves the preprocessor of the type and
    calls the backend's entry point for its kind. *)
Lemma preprocess_dispatch (preprocessor_backend : PreprocessorBackendBase)
    (args : list string) (self : CloudObject) (w : World) :
  fst (is_preprocessed (self, w)) = Return true ->
  preprocess preprocessor_backend false args (self, w)
  = let s := snd (is_preprocessed (self, w)) in
    match preprocessor (_cls self) with
    | Raise e => (Raise e, s)
    | Return cls =>
        let instance := {| instance_of := cls; init_args := args |} in
        if is_BatchPreprocessor cls
        then preprocess_batch preprocessor_backend instance s
        else if is_MapReducePreprocessor cls
        then preprocess_map_reduce preprocessor_backend instance s
        else (Raise (Exception "This object cannot be preprocessed"), s)
    end.
Proof.
  rewrite is_preprocessed_probe. simpl. intros [= Hstored].
  unfold preprocess, bind. rewrite is_preprocessed_probe.
  destruct (absent w (_meta_path self)); [discriminate|]. simpl.
  cbv [get_self pure fst snd].
  destruct (preprocessor (_cls self)) as [cls|e]; [|reflexivity].
  destruct (is_BatchPreprocessor cls); [reflexivity|].
  destruct (is_MapReducePreprocessor cls); reflexivity.
Qed.

(** C1.  The guard of [preprocess] is the reverse of the claim.  With the
    companion stored, [is_preprocessed] returns true and [preprocess] with
    [force] unset does not raise: it resolves the preprocessor and calls the
    backend, which rewrites the companion.  With no companion stored,
    [is_preprocessed] returns false and [preprocess] with [force] unset raises
    the already-preprocessed exception, and the backend is not called. *)
Theorem preprocess_guard_is_inverted :
  let stored := (Fixture.reference, Fixture.data_and_companion) in
  let missing := (Fixture.reference, Fixture.data_only) in
  fst (is_preprocessed stored) = Return true /\
  fst (preprocess Fixture.backend false [] stored) = Return tt /\
  objects (snd (snd (preprocess Fixture.backend false [] stored)))
    !! ("bucket1.meta", "data.csv")
  = Some {| fields := {["ContentLength" := "7"]};
            payload := "batch CSVPreprocessor" |} /\
  fst (is_preprocessed missing) = Return false /\
  fst (preprocess Fixture.backend false [] missing)
  = Raise (Exception "Object is already preprocessed") /\
  objects (snd (snd (preprocess Fixture.backend false [] missing)))
  = objects Fixture.data_only.
Proof.
  intros stored missing.
  assert (Hstored : fst (is_preprocessed stored) = Return true)
    by (vm_compute; reflexivity).
  assert (Hmissing : fst (is_preprocessed missing) = Return false)
    by (vm_compute; reflexivity).
  split; [exact Hstored|].
  split; [subst stored; rewrite (preprocess_dispatch _ _ _ _ Hstored);
          vm_compute; reflexivity|].
  split; [subst stored; rewrite (preprocess_dispatch _ _ _ _ Hstored);
          vm_compute; reflexivity|].
  split; [exact Hmissing|].
  split; [exact (preprocess_guard _ _ _ _ Hmissing)|].
  vm_compute. reflexivity.
Qed.

(** ** [partition] *)

(** C7.  When the strategy returns a list of slices, [partition] returns a
    list of the same length holding the same slices in the same order, each
    contextualized with the invoking reference (the reference as the strategy
    left it), which is then its owner; [partition] adds no effect of its own
    to those of the strategy. *)
Theorem partition_contextualizes
    (strategy : list string -> M Obj (list CloudObjectSlice))
    (args : list string) (self : CloudObject) (w : World)
    (slices : list CloudObjectSlice) (self' : CloudObject) (w' : World) :
  strategy args (self, w) = (Return slices, (self', w')) ->
  exists returned,
    partition strategy args (self, w) = (Return returned, (self', w')) /\
    length returned = length slices /\
    map range returned = map range slices /\
    (forall i s, slices !! i = Some s ->
                 returned !! i = Some (_contextualize s self')) /\
    Forall (fun s => owner s = Some self') returned.
Proof.
  intros Hstrategy.
  exists (map (fun s => _contextualize s self') slices).
  split; [|split; [|split; [|split]]].
  - unfold partition, bind. rewrite Hstrategy. reflexivity.
  - apply length_map.
  - rewrite map_map. reflexivity.
  - intros i s Hi. rewrite list_lookup_fmap, Hi. reflexivity.
  - apply Forall_forall. intros s Hs.
    apply list_elem_of_fmap in Hs. destruct Hs as (s0 & -> & _). reflexivity.
Qed.

Lemma partition_contextualizes_witness :
  exists returned,
    partition Fixture.strategy [] (Fixture.reference, Fixture.data_and_companion)
    = (Return returned, (Fixture.reference, Fixture.data_and_companion)) /\
    length returned = 3 /\
    map range returned = [(0, 3)%Z; (4, 7)%Z; (8, 9)%Z] /\
    Forall (fun s => owner s = Some Fixture.reference) returned.
Proof.
  destruct (partition_contextualizes Fixture.strategy []
              Fixture.reference Fixture.data_and_companion
              Fixture.three_slices Fixture.reference Fixture.data_and_companion
              eq_refl)
    as (returned & Hrun & Hlen & Hranges & _ & Howner).
  exists returned. auto.
Defined.

(** A strategy that raises makes [partition] raise the same exception. *)
Lemma partition_raises
    (strategy : list string -> M Obj (list CloudObjectSlice))
    (args : list string) (s s' : Obj) (e : exn) :
  strategy args s = (Raise e, s') -> partition strategy args s = (Raise e, s').
Proof. intros H. unfold partition, bind. rewrite H. reflexivity. Qed.

(** ** Object locations *)

Lemma strip_prefix_app (p s : string) : strip_prefix p (p ++ s) = Some s.
Proof.
  induction p as [|a p IH]; simpl.
  - destruct s; reflexivity.
  - rewrite Ascii.eqb_refl. exact IH.
Qed.

Lemma split_first_slash_app (b k : string) :
  no_slash b = true -> split_first_slash (b ++ "/" ++ k) = Some (b, k).
Proof.
  induction b as [|a b IH]; simpl.
  - reflexivity.
  - destruct (Ascii.eqb a "/"); simpl; [discriminate|].
    intros Hb. rewrite (IH Hb). reflexivity.
Qed.

(** Every bucket, non-empty and without a slash, and every key are the
    parse of the URI written from them. *)
Lemma from_uri_roundtrip (scheme b k : string) :
  b <> "" -> no_slash b = true ->
  from_uri scheme (scheme ++ "://" ++ b ++ "/" ++ k)
  = Return {| bucket := b; key := k |}.
Proof.
  intros Hne Hb. unfold from_uri, parse_location.
  replace (scheme ++ "://" ++ b ++ "/" ++ k)
    with ((scheme ++ "://") ++ b ++ "/" ++ k).
  - rewrite strip_prefix_app, (split_first_slash_app _ _ Hb).
    rewrite bool_decide_eq_false_2 by exact Hne. reflexivity.
  - clear. generalize (b ++ "/" ++ k). intros rest.
    induction scheme as [|a s IH]; [reflexivity|].
    change (String a ((s ++ "://") ++ rest) = String a (s ++ "://" ++ rest)).
    f_equal. exact IH.
Qed.

(** C9.  For every URI that parses to a primary location, the reference
    [__init__] builds has that location as its path and, as the location of
    its metadata companion, the bucket with [.meta] appended and the same key.
    Construction is a function of its arguments alone: building the reference
    through [from_s3] with [fetch] unset returns it and leaves the store and
    the list of calls as they were. *)
Theorem metadata_location_derived
    (scheme : string) (load_attributes : string -> result SimpleNamespace)
    (data_type : CloudDataType) (s3_uri_path : string)
    (s3_config : option (gmap string string)) (w : World) (loc : PureS3Path) :
  from_uri scheme s3_uri_path = Return loc ->
  exists co,
    CloudObject__init__ scheme data_type s3_uri_path s3_config = Return co /\
    path co = loc /\
    meta_path co = {| bucket := bucket loc ++ ".meta"; key := key loc |} /\
    from_s3 scheme load_attributes data_type s3_uri_path s3_config false w
    = (Return co, w).
Proof.
  intros Huri.
  destruct (init_from_uri scheme data_type s3_uri_path s3_config loc Huri)
    as (co & Hinit & _ & _ & Hop & Hmp & _).
  exists co. split; [exact Hinit|]. split; [exact Hop|]. split; [exact Hmp|].
  unfold from_s3, bind, pure, ret. rewrite Hinit. reflexivity.
Qed.

Lemma metadata_location_derived_witness :
  exists co,
    CloudObject__init__ "store" Fixture.csv_type "store://bucket1/data.csv" None
    = Return co /\
    path co = {| bucket := "bucket1"; key := "data.csv" |} /\
    meta_path co = {| bucket := "bucket1.meta"; key := "data.csv" |} /\
    from_s3 "store" Fixture.decode Fixture.csv_type "store://bucket1/data.csv"
      None false Fixture.empty_store
    = (Return co, Fixture.empty_store).
Proof.
  exact (metadata_location_derived "store" Fixture.decode Fixture.csv_type
           "store://bucket1/data.csv" None Fixture.empty_store
           {| bucket := "bucket1"; key := "data.csv" |} eq_refl).
Defined.

Example fixture_reference_is_constructed :
  CloudObject__init__ "store" Fixture.csv_type "store://bucket1/data.csv" None
  = Return Fixture.reference.
Proof. vm_compute. reflexivity. Qed.

Example from_uri_malformed :
  from_uri "store" "bucket1/data.csv" = Raise (ValueError "MalformedURI").
Proof. reflexivity. Qed.

(** * Further properties of the code *)

(** ** [fetch]: the two flags, and what a failed call leaves behind *)

(** X1.  With [enforce_obj] set, on a reference whose object slot holds no record
    and whose object is not stored, [fetch] raises [KeyError] after the one
    lookup for the object: the companion is not looked up, and the
    reference is as before but for the object slot, which is [None]. *)
Theorem fetch_enforce_obj_raises
    (load_attributes : string -> result SimpleNamespace)
    (enforce_meta : bool) (self : CloudObject) (w : World) :
  truthy (_obj_meta self) = false ->
  objects w !! (bucket (_obj_path self), key (_obj_path self)) = None ->
  fetch load_attributes true enforce_meta (self, w)
  = (Raise KeyError,
     (set_obj_meta None self,
      {| objects := objects w; local_files := local_files w;
         calls := calls w ++ [HeadObject (bucket (_obj_path self))
                                         (key (_obj_path self))] |})).
Proof.
  destruct self as [om mm op mp cls cl attrs0], w as [objs files trace].
  simpl. intros Hom Hobj.
  cbv [fetch bind when try_except_KeyError io assign modify get_self get ret
    raise head_object record_call set_obj_meta fst snd
    _obj_meta _meta_meta _obj_path _meta_path _cls _s3 _obj_attrs
    objects local_files calls].
  rewrite Hom. simpl. rewrite Hobj. reflexivity.
Qed.

Lemma fetch_enforce_obj_raises_witness :
  fetch Fixture.decode true false (Fixture.reference, Fixture.companion_only)
  = (Raise KeyError,
     (Fixture.reference,
      {| objects := objects Fixture.companion_only;
         local_files := local_files Fixture.companion_only;
         calls := [HeadObject "bucket1" "data.csv"] |})).
Proof.
  exact (fetch_enforce_obj_raises Fixture.decode false Fixture.reference
           Fixture.companion_only eq_refl eq_refl).
Defined.

(** X2.  With [enforce_meta] set, when the companion is looked up and not found,
    [fetch] raises [KeyError]; what the first step assigned stays assigned:
    the object slot holds what the lookup for the object found.  The metadata
    slot is [None] and the attributes are as before. *)
Theorem fetch_enforce_meta_raises
    (load_attributes : string -> result SimpleNamespace)
    (enforce_obj : bool) (self : CloudObject) (w : World) :
  companion_probed enforce_obj self w = true ->
  objects w !! (bucket (_meta_path self), key (_meta_path self)) = None ->
  let out := fetch load_attributes enforce_obj true (self, w) in
  fst out = Raise KeyError /\
  _obj_meta (fst (snd out))
  = (if truthy (_obj_meta self) then _obj_meta self
     else fields <$> objects w !! (bucket (_obj_path self), key (_obj_path self))) /\
  _meta_meta (fst (snd out)) = None /\
  _obj_attrs (fst (snd out)) = _obj_attrs self /\
  calls (snd (snd out))
  = (calls w ++ object_lookups self
       ++ [HeadObject (bucket (_meta_path self)) (key (_meta_path self))])%list.
Proof.
  intros Hprobed Hcomp out. subst out.
  rewrite fetch_result, fetch_obj_meta, fetch_meta_meta, fetch_attrs, fetch_calls.
  unfold companion_lookups, attributes_after. rewrite Hprobed, Hcomp.
  unfold companion_probed in Hprobed.
  apply andb_true_iff in Hprobed as [Hmm Hraise].
  apply negb_true_iff in Hmm, Hraise. rewrite Hmm, Hraise.
  auto.
Qed.

Lemma fetch_enforce_meta_raises_witness :
  let out := fetch Fixture.decode false true
               (Fixture.reference, Fixture.data_only) in
  fst out = Raise KeyError /\
  _obj_meta (fst (snd out)) = Some {["ContentLength" := "10"]} /\
  _meta_meta (fst (snd out)) = None.
Proof.
  destruct (fetch_enforce_meta_raises Fixture.decode false Fixture.reference
              Fixture.data_only eq_refl eq_refl)
    as (Hres & Hom & Hmm & _).
  split; [exact Hres|]. split; [exact Hom|exact Hmm].
Defined.

(** X3.  With neither flag set, [fetch] never raises [KeyError]: an object
    or a companion that is not there, and a [KeyError] of the decoder, are
    caught and not raised again. *)
Theorem fetch_unenforced_never_raises_KeyError
    (load_attributes : string -> result SimpleNamespace)
    (self : CloudObject) (w : World) :
  fst (fetch load_attributes false false (self, w)) <> Raise KeyError.
Proof.
  rewrite fetch_result.
  assert (Hraise : object_step_raises false self w = false).
  { unfold object_step_raises. destruct (truthy (_obj_meta self)); reflexivity. }
  rewrite Hraise.
  destruct (truthy (_meta_meta self)); [discriminate|].
  destruct (objects w !! (bucket (_meta_path self), key (_meta_path self)))
    as [c|]; [|discriminate].
  destruct (load_attributes (payload c)) as [attrs|[]]; discriminate.
Qed.

Example fetch_unenforced_on_empty_store :
  fst (fetch Fixture.decode_or_KeyError false false
         (Fixture.reference, Fixture.empty_store))
  = Return (Some (None, None)).
Proof. vm_compute. reflexivity. Qed.

(** X4.  On a reference whose two slots both hold a record, [fetch] does nothing
    at all, whatever the flags and whatever the store holds by now: no lookup,
    no assignment. *)
Theorem fetch_cached_is_noop
    (load_attributes : string -> result SimpleNamespace)
    (enforce_obj enforce_meta : bool) (self : CloudObject) (w : World) :
  truthy (_obj_meta self) = true ->
  truthy (_meta_meta self) = true ->
  fetch load_attributes enforce_obj enforce_meta (self, w) = (Return None, (self, w)).
Proof.
  destruct self as [om mm op mp cls cl attrs0].
  simpl. intros Hom Hmm.
  cbv [fetch bind when get_self ret fst snd _obj_meta _meta_meta].
  rewrite Hom. simpl. rewrite Hmm. reflexivity.
Qed.

Lemma fetch_cached_is_noop_witness :
  let cached := snd (fetch Fixture.decode false false
                       (Fixture.reference, Fixture.data_and_companion)) in
  fetch Fixture.decode true true (fst cached, Fixture.empty_store)
  = (Return None, (fst cached, Fixture.empty_store)).
Proof.
  intros cached.
  apply (fetch_cached_is_noop Fixture.decode true true (fst cached)
           Fixture.empty_store); vm_compute; reflexivity.
Defined.

(** X5.  A [KeyError] raised by the decoder is handled like a companion that is
    not there: the fields just stored in the metadata slot are dropped again,
    the attributes stay as they were, and the call raises only when
    [enforce_meta] is set. *)
Theorem fetch_decoder_KeyError_reads_as_absent
    (load_attributes : string -> result SimpleNamespace)
    (enforce_obj enforce_meta : bool) (self : CloudObject) (w : World)
    (c : S3Object) :
  companion_probed enforce_obj self w = true ->
  objects w !! (bucket (_meta_path self), key (_meta_path self)) = Some c ->
  load_attributes (payload c) = Raise KeyError ->
  let out := fetch load_attributes enforce_obj enforce_meta (self, w) in
  _meta_meta (fst (snd out)) = None /\
  _obj_attrs (fst (snd out)) = _obj_attrs self /\
  fst out = (if enforce_meta then Raise KeyError
             else Return (Some (_obj_meta (fst (snd out)), None))).
Proof.
  intros Hprobed Hcomp Hload out. subst out.
  assert (Hmm : _meta_meta (fst (snd (fetch load_attributes enforce_obj
                                        enforce_meta (self, w)))) = None).
  { rewrite fetch_meta_meta, Hprobed, Hcomp, Hload. reflexivity. }
  split; [exact Hmm|]. split.
  - rewrite fetch_attrs, Hprobed. unfold attributes_after.
    rewrite Hcomp, Hload. reflexivity.
  - rewrite fetch_result, Hmm, Hcomp, Hload.
    unfold companion_probed in Hprobed.
    apply andb_true_iff in Hprobed as [Hslot Hraise].
    apply negb_true_iff in Hslot, Hraise. rewrite Hslot, Hraise.
    reflexivity.
Qed.

Lemma fetch_decoder_KeyError_reads_as_absent_witness :
  let out := fetch Fixture.decode_or_KeyError false false
               (Fixture.reference, Fixture.data_and_corrupt_companion) in
  _meta_meta (fst (snd out)) = None /\
  _obj_attrs (fst (snd out)) = ∅ /\
  fst out = Return (Some (Some {["ContentLength" := "10"]}, None)).
Proof.
  destruct (fetch_decoder_KeyError_reads_as_absent Fixture.decode_or_KeyError
              false false Fixture.reference Fixture.data_and_corrupt_companion
              Fixture.corrupt_companion eq_refl eq_refl eq_refl)
    as (Hmm & Hattrs & Hres).
  split; [exact Hmm|]. split; [exact Hattrs|].
  rewrite Hres. vm_compute. reflexivity.
Defined.

(** ** [exists], [is_preprocessed] and [get_attribute] *)

(** X6.  [exists] answers from the cache when the object slot holds a record,
    without any call and without any assignment; otherwise, when it returns,
    its answer is whether the lookup found an object with fields. *)
Theorem exists_answers_from_cache_or_store
    (load_attributes : string -> result SimpleNamespace)
    (self : CloudObject) (w : World) :
  (truthy (_obj_meta self) = true ->
   exists_ load_attributes (self, w) = (Return true, (self, w))) /\
  (forall b,
     fst (exists_ load_attributes (self, w)) = Return b ->
     b = truthy (_obj_meta self)
         || truthy (fields <$> objects w !! (bucket (_obj_path self),
                                             key (_obj_path self)))).
Proof.
  split.
  - intros Hom. rewrite exists_unfold, Hom. reflexivity.
  - intros b. rewrite exists_unfold.
    destruct (truthy (_obj_meta self)) eqn:Hom; simpl.
    + intros [= <-]. reflexivity.
    + pose proof (fetch_obj_meta load_attributes false false self w) as Hslot.
      rewrite Hom in Hslot.
      destruct (fst (fetch load_attributes false false (self, w)));
        simpl; [|discriminate].
      intros [= <-]. rewrite Hslot. reflexivity.
Qed.

Lemma exists_answers_from_cache_or_store_witness :
  (let cached := snd (fetch Fixture.decode false false
                        (Fixture.reference, Fixture.data_only)) in
   exists_ Fixture.decode (fst cached, Fixture.empty_store)
   = (Return true, (fst cached, Fixture.empty_store))) /\
  false = truthy (_obj_meta Fixture.reference)
          || truthy (fields <$> objects Fixture.companion_only
                                  !! ("bucket1", "data.csv")).
Proof.
  split.
  - intros cached.
    apply (proj1 (exists_answers_from_cache_or_store Fixture.decode
                    (fst cached) Fixture.empty_store)).
    vm_compute. reflexivity.
  - apply (proj2 (exists_answers_from_cache_or_store Fixture.decode
                    Fixture.reference Fixture.companion_only) false).
    vm_compute. reflexivity.
Defined.

(** X7.  When the object is stored and the payload of the companion does not
    decode, a first [exists] raises the decoder's exception, but the object
    slot was assigned before the decoder ran: a second [exists] returns true
    from the cache, with no call. *)
Theorem exists_recovers_after_decode_failure
    (load_attributes : string -> result SimpleNamespace)
    (self : CloudObject) (w : World) (o c : S3Object) (e : exn) :
  truthy (_obj_meta self) = false ->
  truthy (_meta_meta self) = false ->
  objects w !! (bucket (_obj_path self), key (_obj_path self)) = Some o ->
  fields o <> ∅ ->
  objects w !! (bucket (_meta_path self), key (_meta_path self)) = Some c ->
  load_attributes (payload c) = Raise e ->
  e <> KeyError ->
  let first := exists_ load_attributes (self, w) in
  fst first = Raise e /\
  exists_ load_attributes (snd first) = (Return true, snd first).
Proof.
  intros Hom Hmm Ho Hfo Hc Hload He first.
  destruct (exists_on_empty_slots load_attributes self w Hom Hmm) as [_ Hres].
  cbv zeta in Hres. rewrite Hc, Hload in Hres.
  split.
  - subst first. rewrite Hres. destruct e; try reflexivity. contradiction.
  - subst first. rewrite (exists_state _ _ _ Hom).
    rewrite (surjective_pairing (snd (fetch load_attributes false false (self, w)))).
    rewrite exists_unfold, fetch_obj_meta, Hom, Ho. simpl.
    rewrite bool_decide_eq_false_2 by exact Hfo. reflexivity.
Qed.

Lemma exists_recovers_after_decode_failure_witness :
  let first := exists_ Fixture.decode
                 (Fixture.reference, Fixture.data_and_corrupt_companion) in
  fst first = Raise (ValueError "CorruptAttributes") /\
  exists_ Fixture.decode (snd first) = (Return true, snd first).
Proof.
  apply (exists_recovers_after_decode_failure Fixture.decode Fixture.reference
           Fixture.data_and_corrupt_companion Fixture.data_object
           Fixture.corrupt_companion (ValueError "CorruptAttributes"));
    vm_compute; first [reflexivity | discriminate].
Defined.

(** X8.  [is_preprocessed] does not go through the cache.  It makes one
    lookup for the companion even when the metadata slot holds a record, and
    assigns nothing to the reference; the boolean it returns is whether the
    companion is stored.  It agrees with a [fetch] that has just looked the
    companion up: with a record in the metadata slot after that [fetch], the
    boolean [is_preprocessed] returns is true. *)
Theorem is_preprocessed_bypasses_cache
    (load_attributes : string -> result SimpleNamespace)
    (enforce_obj enforce_meta : bool) (self : CloudObject) (w : World) :
  (let probe := is_preprocessed (self, w) in
   calls (snd (snd probe))
   = (calls w ++ [HeadObject (bucket (_meta_path self))
                             (key (_meta_path self))])%list /\
   fst (snd probe) = self /\
   objects (snd (snd probe)) = objects w /\
   (forall b,
      fst probe = Return b ->
      (b = true <->
       is_Some (objects w !! (bucket (_meta_path self), key (_meta_path self)))))) /\
  (let out := fetch load_attributes enforce_obj enforce_meta (self, w) in
   companion_probed enforce_obj self w = true ->
   is_Some (_meta_meta (fst (snd out))) ->
   forall b, fst (is_preprocessed (snd out)) = Return b -> b = true).
Proof.
  split.
  - cbv zeta. rewrite is_preprocessed_probe. simpl.
    split; [reflexivity|]. split; [reflexivity|]. split; [reflexivity|].
    intros b [= <-]. unfold absent.
    destruct (objects w !! (bucket (_meta_path self), key (_meta_path self)));
      simpl; split; intros H; try reflexivity; try discriminate; eauto.
    destruct H as [? H]. discriminate.
  - intros out Hprobed Hslot b. subst out.
    rewrite (surjective_pairing (snd (fetch load_attributes enforce_obj
                                        enforce_meta (self, w)))).
    rewrite is_preprocessed_probe. simpl.
    destruct (fetch_frame load_attributes enforce_obj enforce_meta self w)
      as (_ & Hmp & _).
    destruct (fetch_store load_attributes enforce_obj enforce_meta self w)
      as [Hobjs _].
    unfold absent. rewrite Hobjs, Hmp.
    rewrite fetch_meta_meta, Hprobed in Hslot.
    destruct (objects w !! (bucket (_meta_path self), key (_meta_path self)));
      [intros [= <-]; reflexivity|].
    destruct Hslot as [? Hslot]. discriminate.
Qed.

Lemma is_preprocessed_bypasses_cache_witness :
  let out := fetch Fixture.decode false false
               (Fixture.reference, Fixture.data_and_companion) in
  (true = true <->
   is_Some (objects Fixture.data_and_companion !! ("bucket1.meta", "data.csv"))) /\
  true = true /\
  calls (snd (snd (is_preprocessed (snd out))))
  = [HeadObject "bucket1" "data.csv"; HeadObject "bucket1.meta" "data.csv";
     HeadObject "bucket1.meta" "data.csv"].
Proof.
  intros out. split; [|split].
  - destruct (proj1 (is_preprocessed_bypasses_cache Fixture.decode false false
                       Fixture.reference Fixture.data_and_companion))
      as (_ & _ & _ & Hanswer).
    exact (Hanswer true eq_refl).
  - apply (proj2 (is_preprocessed_bypasses_cache Fixture.decode false false
                    Fixture.reference Fixture.data_and_companion)).
    + vm_compute. reflexivity.
    + vm_compute. eexists. reflexivity.
    + vm_compute. reflexivity.
  - vm_compute. reflexivity.
Defined.

(** X9.  For a name that is not of the form [__x__], [get_attribute] right
    after a [fetch] that looked the companion up and decoded it returns the
    decoded value under the name, and raises [AttributeError] when the
    decoded mapping lacks the name; the state is as [fetch] left it. *)
Theorem get_attribute_after_fetch
    (load_attributes : string -> result SimpleNamespace)
    (getattr_special : SimpleNamespace -> string -> result Any)
    (enforce_obj enforce_meta : bool) (self : CloudObject) (w : World)
    (c : S3Object) (attrs : SimpleNamespace) (k : string) :
  is_dunder k = false ->
  companion_probed enforce_obj self w = true ->
  objects w !! (bucket (_meta_path self), key (_meta_path self)) = Some c ->
  load_attributes (payload c) = Return attrs ->
  let fetched := fetch load_attributes enforce_obj enforce_meta (self, w) in
  (fetch load_attributes enforce_obj enforce_meta ;;
   get_attribute getattr_special k) (self, w)
  = (match attrs !! k with
     | Some v => Return v
     | None => Raise (AttributeError k)
     end, snd fetched).
Proof.
  intros Hk Hprobed Hc Hload fetched. subst fetched.
  pose proof (fetch_result load_attributes enforce_obj enforce_meta self w) as Hres.
  pose proof (fetch_attrs load_attributes enforce_obj enforce_meta self w) as Hattrs.
  rewrite Hprobed in Hattrs. unfold attributes_after in Hattrs.
  rewrite Hc, Hload in Hattrs. rewrite Hc, Hload in Hres.
  unfold companion_probed in Hprobed.
  apply andb_true_iff in Hprobed as [Hslot Hraise].
  apply negb_true_iff in Hslot, Hraise. rewrite Hslot, Hraise in Hres.
  unfold bind.
  destruct (fetch load_attributes enforce_obj enforce_meta (self, w))
    as [r [self1 w1]].
  simpl in Hres, Hattrs. rewrite Hres.
  unfold get_attribute, bind, get_self, ret, raise. simpl. rewrite Hk, Hattrs.
  destruct (attrs !! k); reflexivity.
Qed.

Lemma get_attribute_after_fetch_witness :
  fst ((fetch Fixture.decode false false ;; get_attribute Fixture.special "lines")
         (Fixture.reference, Fixture.data_and_companion))
  = Return (AnyInt 3) /\
  fst ((fetch Fixture.decode false false ;; get_attribute Fixture.special "columns")
         (Fixture.reference, Fixture.data_and_companion))
  = Raise (AttributeError "columns").
Proof.
  split.
  - rewrite (get_attribute_after_fetch Fixture.decode Fixture.special false false
               Fixture.reference Fixture.data_and_companion
               Fixture.companion_object {["lines" := AnyInt 3]} "lines"
               eq_refl eq_refl eq_refl eq_refl).
    reflexivity.
  - rewrite (get_attribute_after_fetch Fixture.decode Fixture.special false false
               Fixture.reference Fixture.data_and_companion
               Fixture.companion_object {["lines" := AnyInt 3]} "columns"
               eq_refl eq_refl eq_refl eq_refl).
    reflexivity.
Defined.

(** A name of the form [__x__] is not looked up in the decoded mapping:
    what [get_attribute] gives for it is what the interpreter resolves, also
    on a record with no attribute at all. *)
Example get_attribute_special_name :
  get_attribute Fixture.special "__doc__"
    (Fixture.reference, Fixture.data_and_companion)
  = (Return (AnyStr ""), (Fixture.reference, Fixture.data_and_companion)).
Proof. reflexivity. Qed.

(** ** [preprocess]: the guard and the choice of the entry point *)

(** [preprocess] is one lookup for the companion, then the guard, then the
    dispatch. *)
Lemma preprocess_unfold (preprocessor_backend : PreprocessorBackendBase)
    (force : bool) (args : list string) (self : CloudObject) (w : World) :
  preprocess preprocessor_backend force args (self, w)
  = let s := snd (is_preprocessed (self, w)) in
    if absent w (_meta_path self) && negb force
    then (Raise (Exception "Object is already preprocessed"), s)
    else dispatch preprocessor_backend args s.
Proof.
  unfold preprocess, bind. rewrite is_preprocessed_probe.
  cbv zeta. cbv [snd].
  destruct (absent w (_meta_path self)), force; simpl;
    try reflexivity;
    unfold dispatch, get_self, pure; simpl;
    (destruct (preprocessor (_cls self)) as [cls|e]; [|reflexivity]);
    (destruct (is_BatchPreprocessor cls); [reflexivity|]);
    (destruct (is_MapReducePreprocessor cls); reflexivity).
Qed.

(** X10.  With [force] set the guard never raises: whatever the store holds,
    [preprocess] makes its lookup for the companion and goes on to the
    dispatch. *)
Theorem preprocess_force_skips_guard
    (preprocessor_backend : PreprocessorBackendBase) (args : list string)
    (self : CloudObject) (w : World) :
  preprocess preprocessor_backend true args (self, w)
  = dispatch preprocessor_backend args
      (self,
       {| objects := objects w; local_files := local_files w;
          calls := calls w ++ [HeadObject (bucket (_meta_path self))
                                          (key (_meta_path self))] |}).
Proof.
  rewrite preprocess_unfold, is_preprocessed_probe, andb_false_r. reflexivity.
Qed.



(** X12.  Past the guard, [preprocess] raises before it reaches the backend when
    the type resolves to no preprocessor, or to a class that derives from
    neither base: the outcome is the same for every backend, and the only
    effect is the lookup for the companion. *)
Theorem preprocess_raises_before_backend
    (preprocessor_backend : PreprocessorBackendBase) (force : bool)
    (args : list string) (self : CloudObject) (w : World) :
  force || negb (absent w (_meta_path self)) = true ->
  let s := (self,
            {| objects := objects w; local_files := local_files w;
               calls := calls w ++ [HeadObject (bucket (_meta_path self))
                                               (key (_meta_path self))] |}) in
  (forall e,
     preprocessor (_cls self) = Raise e ->
     preprocess preprocessor_backend force args (self, w) = (Raise e, s)) /\
  (forall cls,
     preprocessor (_cls self) = Return cls ->
     is_BatchPreprocessor cls = false ->
     is_MapReducePreprocessor cls = false ->
     preprocess preprocessor_backend force args (self, w)
     = (Raise (Exception "This object cannot be preprocessed"), s)).
Proof.
  intros Hguard s. subst s.
  assert (Hpass : absent w (_meta_path self) && negb force = false).
  { destruct force, (absent w (_meta_path self)); simpl in *; congruence. }
  split.
  - intros e He. rewrite preprocess_unfold. cbv zeta.
    rewrite Hpass, is_preprocessed_probe. unfold dispatch. simpl.
    rewrite He. reflexivity.
  - intros cls Hcls Hb Hm. rewrite preprocess_unfold. cbv zeta.
    rewrite Hpass, is_preprocessed_probe. unfold dispatch. simpl.
    rewrite Hcls, Hb, Hm. reflexivity.
Qed.

Lemma preprocess_raises_before_backend_witness :
  fst (preprocess Fixture.backend true [] (Fixture.text_reference, Fixture.data_only))
  = Raise (Exception "There is not preprocessor") /\
  preprocess Fixture.backend false []
    (Fixture.plain_reference, Fixture.data_and_companion)
  = (Raise (Exception "This object cannot be preprocessed"),
     (Fixture.plain_reference,
      {| objects := objects Fixture.data_and_companion;
         local_files := local_files Fixture.data_and_companion;
         calls := [HeadObject "bucket1.meta" "data.csv"] |})).
Proof.
  split.
  - rewrite (proj1 (preprocess_raises_before_backend Fixture.backend true []
                      Fixture.text_reference Fixture.data_only eq_refl)
               (Exception "There is not preprocessor") eq_refl).
    reflexivity.
  - exact (proj2 (preprocess_raises_before_backend Fixture.backend false []
                    Fixture.plain_reference Fixture.data_and_companion eq_refl)
             Fixture.plain_class eq_refl eq_refl eq_refl).
Defined.

(** ** The constructors: [__init__], [from_s3], [new_from_file] *)

Lemma append_meta_differs (s : string) : s ++ ".meta" <> s.
Proof.
  induction s as [|a s IH]; simpl; [discriminate|].
  intros [= H]. exact (IH H).
Qed.

(** A new reference is [new_reference] at the parsed location. *)
Lemma init_is_new_reference (scheme : string) (data_type : CloudDataType)
    (uri : string) (s3_config : option (gmap string string)) (loc : PureS3Path) :
  from_uri scheme uri = Return loc ->
  exists s3,
    CloudObject__init__ scheme data_type uri s3_config
    = Return (new_reference data_type loc s3).
Proof.
  intros Huri. unfold CloudObject__init__. rewrite Huri.
  eexists. reflexivity.
Qed.

(** With neither flag set, [fetch] returns whenever the lookup of the
    companion runs to its end. *)
Lemma fetch_unenforced_returns
    (load_attributes : string -> result SimpleNamespace)
    (self : CloudObject) (w : World) :
  companion_completes load_attributes w (_meta_path self) = true ->
  exists r, fst (fetch load_attributes false false (self, w)) = Return r.
Proof.
  intros Hcomplete. rewrite fetch_result.
  assert (Hraise : object_step_raises false self w = false).
  { unfold object_step_raises. destruct (truthy (_obj_meta self)); reflexivity. }
  rewrite Hraise. unfold companion_completes in Hcomplete.
  destruct (truthy (_meta_meta self)); [eauto|].
  destruct (objects w !! (bucket (_meta_path self), key (_meta_path self)))
    as [c|]; [|eauto].
  destruct (load_attributes (payload c)) as [attrs|[]];
    try discriminate; eauto.
Qed.

(** X13.  The location of the companion never coincides with the location of the
    object: every reference [__init__] builds has its two paths apart, with
    the same key. *)
Theorem init_paths_distinct (scheme : string) (data_type : CloudDataType)
    (uri : string) (s3_config : option (gmap string string)) (co : CloudObject) :
  CloudObject__init__ scheme data_type uri s3_config = Return co ->
  _meta_path co <> _obj_path co /\
  (bucket (_meta_path co), key (_meta_path co))
  <> (bucket (_obj_path co), key (_obj_path co)) /\
  key (_meta_path co) = key (_obj_path co).
Proof.
  unfold CloudObject__init__.
  destruct (from_uri scheme uri) as [loc|e]; [|discriminate].
  intros [= <-]. simpl.
  split; [|split; [|reflexivity]].
  - intros H. apply (append_meta_differs (bucket loc)).
    rewrite <- H at 2. reflexivity.
  - intros [= H]. exact (append_meta_differs _ H).
Qed.

Lemma init_paths_distinct_witness :
  _meta_path Fixture.reference <> _obj_path Fixture.reference.
Proof.
  exact (proj1 (init_paths_distinct "store" Fixture.csv_type
                  "store://bucket1/data.csv" None Fixture.reference eq_refl)).
Defined.

(** X14.  A URI that does not parse makes each constructor raise the parser's
    exception before any call on the store. *)
Theorem constructors_reject_malformed_uri
    (scheme : string) (load_attributes : string -> result SimpleNamespace)
    (split_s3_path : string -> result (string * string))
    (data_type : CloudDataType) (uri file_path : string)
    (s3_config : option (gmap string string)) (fetch_ : bool) (w : World)
    (e : exn) :
  from_uri scheme uri = Raise e ->
  CloudObject__init__ scheme data_type uri s3_config = Raise e /\
  from_s3 scheme load_attributes data_type uri s3_config fetch_ w = (Raise e, w) /\
  new_from_file scheme load_attributes split_s3_path data_type file_path uri
    s3_config w
  = (Raise e, w).
Proof.
  intros Huri.
  assert (Hinit : CloudObject__init__ scheme data_type uri s3_config = Raise e).
  { unfold CloudObject__init__. rewrite Huri. reflexivity. }
  split; [exact Hinit|].
  unfold from_s3, new_from_file, bind, pure. rewrite Hinit. auto.
Qed.

Lemma constructors_reject_malformed_uri_witness :
  from_s3 "store" Fixture.decode Fixture.csv_type "s3:/bucket1/data.csv" None
    true Fixture.data_and_companion
  = (Raise (ValueError "MalformedURI"), Fixture.data_and_companion) /\
  new_from_file "store" Fixture.decode Fixture.split_path Fixture.csv_type
    "/tmp/data.csv" "s3:/bucket1/data.csv" None Fixture.empty_store
  = (Raise (ValueError "MalformedURI"), Fixture.empty_store).
Proof.
  split.
  - exact (proj1 (proj2 (constructors_reject_malformed_uri "store" Fixture.decode
             Fixture.split_path Fixture.csv_type "s3:/bucket1/data.csv" "/tmp/data.csv" None true
             Fixture.data_and_companion (ValueError "MalformedURI") eq_refl))).
  - exact (proj2 (proj2 (constructors_reject_malformed_uri "store" Fixture.decode
             Fixture.split_path Fixture.csv_type "s3:/bucket1/data.csv" "/tmp/data.csv" None true
             Fixture.empty_store (ValueError "MalformedURI") eq_refl))).
Defined.

(** X15.  [from_s3] with [fetch] set, at a location where no object is stored:
    it raises [KeyError] after the one lookup for the object, and the
    companion is not looked up. *)
Theorem from_s3_absent_raises
    (scheme : string) (load_attributes : string -> result SimpleNamespace)
    (data_type : CloudDataType) (uri : string)
    (s3_config : option (gmap string string)) (w : World) (loc : PureS3Path) :
  from_uri scheme uri = Return loc ->
  objects w !! (bucket loc, key loc) = None ->
  from_s3 scheme load_attributes data_type uri s3_config true w
  = (Raise KeyError,
     {| objects := objects w; local_files := local_files w;
        calls := calls w ++ [HeadObject (bucket loc) (key loc)] |}).
Proof.
  intros Huri Habsent.
  destruct (init_is_new_reference scheme data_type uri s3_config loc Huri)
    as [s3 Hinit].
  unfold from_s3, bind, pure, on. rewrite Hinit.
  pose proof (fetch_result load_attributes true false
                (new_reference data_type loc s3) w) as Hres.
  pose proof (fetch_calls load_attributes true false
                (new_reference data_type loc s3) w) as Hcalls.
  destruct (fetch_store load_attributes true false
              (new_reference data_type loc s3) w) as [Hobjs Hfiles].
  unfold object_lookups, companion_lookups, companion_probed,
    object_step_raises, absent in Hres, Hcalls.
  simpl in Hres, Hcalls. rewrite Habsent in Hres, Hcalls. simpl in Hres, Hcalls.
  destruct (fetch load_attributes true false (new_reference data_type loc s3, w))
    as [r [co' [objs' files' calls']]].
  simpl in Hres, Hcalls, Hobjs, Hfiles. subst. reflexivity.
Qed.

Lemma from_s3_absent_raises_witness :
  from_s3 "store" Fixture.decode Fixture.csv_type "store://bucket1/data.csv"
    None true Fixture.companion_only
  = (Raise KeyError,
     {| objects := objects Fixture.companion_only;
        local_files := local_files Fixture.companion_only;
        calls := [HeadObject "bucket1" "data.csv"] |}).
Proof.
  exact (from_s3_absent_raises "store" Fixture.decode Fixture.csv_type
           "store://bucket1/data.csv" None Fixture.companion_only
           {| bucket := "bucket1"; key := "data.csv" |} eq_refl eq_refl).
Defined.

(** X16.  [from_s3] with [fetch] set, at a location where an object is stored and
    the lookup of the companion runs to its end: it returns a reference to
    the location whose object slot holds the fields of the object, after one
    lookup for each of the two.  When the companion is stored and decodes,
    the reference carries its fields and the decoded attributes; when there is
    no companion, the metadata slot is [None] and the attributes are empty. *)
Theorem from_s3_fetches
    (scheme : string) (load_attributes : string -> result SimpleNamespace)
    (data_type : CloudDataType) (uri : string)
    (s3_config : option (gmap string string)) (w : World) (loc : PureS3Path)
    (o : S3Object) :
  from_uri scheme uri = Return loc ->
  objects w !! (bucket loc, key loc) = Some o ->
  let meta := {| bucket := bucket loc ++ ".meta"; key := key loc |} in
  companion_completes load_attributes w meta = true ->
  exists co,
    from_s3 scheme load_attributes data_type uri s3_config true w
    = (Return co,
       {| objects := objects w; local_files := local_files w;
          calls := calls w ++ [HeadObject (bucket loc) (key loc);
                               HeadObject (bucket meta) (key meta)] |}) /\
    _obj_path co = loc /\ _meta_path co = meta /\
    _obj_meta co = Some (fields o) /\
    (forall c attrs,
        objects w !! (bucket meta, key meta) = Some c ->
        load_attributes (payload c) = Return attrs ->
        _meta_meta co = Some (fields c) /\ _obj_attrs co = attrs) /\
    (objects w !! (bucket meta, key meta) = None ->
     _meta_meta co = None /\ _obj_attrs co = ∅).
Proof.
  intros Huri Ho meta Hcomplete. subst meta.
  destruct (init_is_new_reference scheme data_type uri s3_config loc Huri)
    as [s3 Hinit].
  unfold from_s3, bind, pure, on, ret. rewrite Hinit.
  set (co0 := new_reference data_type loc s3).
  pose proof (fetch_outcome load_attributes true false co0 w)
    as (Hcalls & (Hobjs & Hfiles) & (Hp & Hq & _) & Hattrs & Hom & Hmm & Hres).
  unfold object_lookups, companion_lookups, companion_probed,
    object_step_raises, attributes_after, absent in *.
  unfold companion_completes in Hcomplete.
  simpl in *. rewrite Ho in *. simpl in *.
  destruct (fetch load_attributes true false (co0, w))
    as [r [co' [objs' files' calls']]].
  simpl in *. subst objs' files' calls'.
  destruct (objects w !! (bucket loc ++ ".meta", key loc)) as [c|] eqn:Hc.
  - destruct (load_attributes (payload c)) as [attrs|[]] eqn:Hload;
      try discriminate; subst r; exists co';
      (split; [rewrite <- ?app_assoc; reflexivity|]);
      (split; [exact Hp|]); (split; [exact Hq|]); (split; [exact Hom|]);
      (split; [|discriminate]); intros c' attrs' [= <-] Hload';
      rewrite Hload in Hload'; try discriminate.
    injection Hload' as <-. auto.
  - subst r. exists co'.
    split; [rewrite <- ?app_assoc; reflexivity|].
    split; [exact Hp|]. split; [exact Hq|]. split; [exact Hom|].
    split; [discriminate|]. auto.
Qed.

Lemma from_s3_fetches_witness :
  exists co,
    fst (from_s3 "store" Fixture.decode Fixture.csv_type
           "store://bucket1/data.csv" None true Fixture.data_and_companion)
    = Return co /\
    _obj_meta co = Some {["ContentLength" := "10"]} /\
    _meta_meta co = Some {["ContentLength" := "7"]} /\
    _obj_attrs co = {["lines" := AnyInt 3]}.
Proof.
  destruct (from_s3_fetches "store" Fixture.decode Fixture.csv_type
              "store://bucket1/data.csv" None Fixture.data_and_companion
              {| bucket := "bucket1"; key := "data.csv" |} Fixture.data_object
              eq_refl eq_refl eq_refl)
    as (co & Hrun & _ & _ & Hom & Hfound & _).
  destruct (Hfound Fixture.companion_object {["lines" := AnyInt 3]}
              eq_refl eq_refl) as [Hmm Hattrs].
  exists co. rewrite Hrun. auto.
Defined.

(** [new_from_file], once the URI has parsed, is [exists] on the new
    reference followed by the guard, the second parse and the upload. *)
Lemma new_from_file_run
    (scheme : string) (load_attributes : string -> result SimpleNamespace)
    (split_s3_path : string -> result (string * string))
    (data_type : CloudDataType) (file_path uri : string)
    (s3_config : option (gmap string string)) (w : World) (loc : PureS3Path) :
  from_uri scheme uri = Return loc ->
  exists s3,
    new_from_file scheme load_attributes split_s3_path data_type file_path uri
      s3_config w
    = match exists_ load_attributes (new_reference data_type loc s3, w) with
      | (Return true, (_, w')) =>
          (Raise (Exception "Object already exists"), w')
      | (Return false, (co', w')) =>
          match split_s3_path uri with
          | Return bk =>
              (Return co',
               {| objects := <[(fst bk, snd bk) := local_files w' file_path]>
                               (objects w');
                  local_files := local_files w';
                  calls := calls w' ++ [UploadFile file_path (fst bk) (snd bk)] |})
          | Raise e => (Raise e, w')
          end
      | (Raise e, (_, w')) => (Raise e, w')
      end.
Proof.
  intros Huri.
  destruct (init_is_new_reference scheme data_type uri s3_config loc Huri)
    as [s3 Hinit].
  exists s3. unfold new_from_file. rewrite Hinit.
  cbv [bind pure on ret raise upload_file record_call modify fst snd].
  destruct (exists_ load_attributes (new_reference data_type loc s3, w))
    as [[[]|e] [co' w']];
    first [reflexivity
          | destruct (split_s3_path uri) as [[b k]|e']; reflexivity].
Qed.

(** The world [new_from_file] leaves after an upload: the file is stored
    under the bucket and key [split_s3_path] read. *)
Lemma new_from_file_uploads
    (scheme : string) (load_attributes : string -> result SimpleNamespace)
    (split_s3_path : string -> result (string * string))
    (data_type : CloudDataType) (file_path uri : string)
    (s3_config : option (gmap string string)) (w : World) (loc : PureS3Path)
    (b k : string) :
  from_uri scheme uri = Return loc ->
  split_s3_path uri = Return (b, k) ->
  objects w !! (bucket loc, key loc) = None ->
  companion_completes load_attributes w
    {| bucket := bucket loc ++ ".meta"; key := key loc |} = true ->
  exists co,
    new_from_file scheme load_attributes split_s3_path data_type file_path uri
      s3_config w
    = (Return co,
       {| objects := <[(b, k) := local_files w file_path]> (objects w);
          local_files := local_files w;
          calls := calls w ++ [HeadObject (bucket loc) (key loc);
                               HeadObject (bucket loc ++ ".meta") (key loc);
                               UploadFile file_path b k] |}) /\
    _obj_meta co = None /\
    _obj_path co = loc /\
    _meta_path co = {| bucket := bucket loc ++ ".meta"; key := key loc |}.
Proof.
  intros Huri Hsplit Habsent Hcomplete.
  destruct (new_from_file_run scheme load_attributes split_s3_path data_type
              file_path uri s3_config w loc Huri) as [s3 Hrun].
  rewrite Hsplit in Hrun.
  set (co0 := new_reference data_type loc s3) in *.
  destruct (exists_on_empty_slots load_attributes co0 w eq_refl eq_refl)
    as [Hcalls Hres].
  pose proof (exists_state load_attributes co0 w eq_refl) as Hstate.
  pose proof (fetch_outcome load_attributes false false co0 w)
    as (_ & (Hobjs & Hfiles) & (Hp & Hq & _) & _ & Hom & _).
  rewrite <- Hstate in Hobjs, Hfiles, Hp, Hq, Hom.
  unfold companion_completes in Hcomplete.
  simpl in *. rewrite Habsent in *. simpl in *.
  destruct (exists_ load_attributes (co0, w)) as [r [co' [objs' files' calls']]].
  simpl in *. subst objs' files' calls'.
  assert (Hr : r = Return false).
  { rewrite Hres.
    destruct (objects w !! (bucket loc ++ ".meta", key loc)) as [c|];
      [|reflexivity].
    destruct (load_attributes (payload c)) as [attrs|[]];
      first [reflexivity | discriminate]. }
  rewrite Hr in Hrun. exists co'. rewrite Hrun, <- app_assoc. auto.
Qed.

(** X17.  After [new_from_file] has uploaded a file whose object has fields,
    the reference it returns still has an empty object slot, so [exists] on
    it looks the object up again, at the location of the reference.  It
    returns true when [split_s3_path] read the bucket and key of that
    location, which is where the upload then went; it returns false when
    [split_s3_path] read another bucket or key, the upload having gone
    there. *)
Theorem new_from_file_then_exists
    (scheme : string) (load_attributes : string -> result SimpleNamespace)
    (split_s3_path : string -> result (string * string))
    (data_type : CloudDataType) (file_path uri : string)
    (s3_config : option (gmap string string)) (w : World) (loc : PureS3Path)
    (b k : string) :
  from_uri scheme uri = Return loc ->
  split_s3_path uri = Return (b, k) ->
  (b, k) <> (bucket loc ++ ".meta", key loc) ->
  objects w !! (bucket loc, key loc) = None ->
  companion_completes load_attributes w
    {| bucket := bucket loc ++ ".meta"; key := key loc |} = true ->
  fields (local_files w file_path) <> ∅ ->
  let created := new_from_file scheme load_attributes split_s3_path data_type
                   file_path uri s3_config w in
  exists co,
    fst created = Return co /\
    _obj_meta co = None /\
    objects (snd created) !! (b, k) = Some (local_files w file_path) /\
    fst (exists_ load_attributes (co, snd created))
    = Return (bool_decide ((b, k) = (bucket loc, key loc))).
Proof.
  intros Huri Hsplit Hmeta Habsent Hcomplete Hfile created. subst created.
  destruct (new_from_file_uploads scheme load_attributes split_s3_path data_type
              file_path uri s3_config w loc b k Huri Hsplit Habsent Hcomplete)
    as (co & Hrun & Hom & Hp & Hq).
  exists co. rewrite Hrun. simpl.
  split; [reflexivity|]. split; [exact Hom|].
  split; [apply lookup_insert_eq|].
  set (w2 := {| objects := <[(b, k) := local_files w file_path]> (objects w);
                local_files := local_files w;
                calls := calls w ++ [HeadObject (bucket loc) (key loc);
                                     HeadObject (bucket loc ++ ".meta") (key loc);
                                     UploadFile file_path b k] |}).
  assert (Hcomplete2 : companion_completes load_attributes w2 (_meta_path co) = true).
  { rewrite Hq. unfold companion_completes in *. simpl in *.
    rewrite lookup_insert_ne by exact Hmeta. exact Hcomplete. }
  destruct (fetch_unenforced_returns load_attributes co w2 Hcomplete2) as [r Hr].
  rewrite exists_unfold, Hom. simpl. rewrite Hr.
  simpl. rewrite fetch_obj_meta, Hom, Hp. simpl.
  destruct (decide ((b, k) = (bucket loc, key loc))) as [Heq|Hne].
  - rewrite bool_decide_eq_true_2 by exact Heq.
    rewrite Heq, lookup_insert_eq. simpl.
    rewrite bool_decide_eq_false_2 by exact Hfile. reflexivity.
  - rewrite bool_decide_eq_false_2 by exact Hne.
    rewrite lookup_insert_ne by exact Hne. rewrite Habsent. reflexivity.
Qed.

Lemma new_from_file_then_exists_witness :
  (let created := new_from_file "store" Fixture.decode Fixture.split_path
                    Fixture.csv_type "/tmp/data.csv" "store://bucket1/data.csv"
                    None Fixture.empty_store in
   exists co,
     fst created = Return co /\
     fst (exists_ Fixture.decode (co, snd created)) = Return true) /\
  (let created := new_from_file "store" Fixture.decode Fixture.split_path_raw
                    Fixture.csv_type "/tmp/data.csv" "store://bucket1/data.csv"
                    None Fixture.empty_store in
   exists co,
     fst created = Return co /\
     fst (exists_ Fixture.decode (co, snd created)) = Return false).
Proof.
  split.
  - destruct (new_from_file_then_exists "store" Fixture.decode Fixture.split_path
                Fixture.csv_type "/tmp/data.csv" "store://bucket1/data.csv" None
                Fixture.empty_store {| bucket := "bucket1"; key := "data.csv" |}
                "bucket1" "data.csv" eq_refl eq_refl)
      as (co & Hco & _ & _ & Hexists);
      try (vm_compute; first [reflexivity | discriminate]).
    exists co. split; [exact Hco|]. rewrite Hexists. reflexivity.
  - destruct (new_from_file_then_exists "store" Fixture.decode
                Fixture.split_path_raw
                Fixture.csv_type "/tmp/data.csv" "store://bucket1/data.csv" None
                Fixture.empty_store {| bucket := "bucket1"; key := "data.csv" |}
                "bucket1" "/data.csv" eq_refl eq_refl)
      as (co & Hco & _ & _ & Hexists);
      try (vm_compute; first [reflexivity | discriminate]).
    exists co. split; [exact Hco|]. rewrite Hexists. reflexivity.
Defined.

(** X18.  When [split_s3_path] reads the bucket and key of the location,
    [new_from_file] does not overwrite its own upload: called again for the
    same URI with the same configuration, with whatever file and type, it
    raises the already-exists exception, makes no further upload call and
    leaves the stored objects as the first call left them. *)
Theorem new_from_file_twice
    (scheme : string) (load_attributes : string -> result SimpleNamespace)
    (split_s3_path : string -> result (string * string))
    (data_type data_type' : CloudDataType) (file_path file_path' uri : string)
    (s3_config : option (gmap string string)) (w : World)
    (loc : PureS3Path) :
  from_uri scheme uri = Return loc ->
  split_s3_path uri = Return (bucket loc, key loc) ->
  objects w !! (bucket loc, key loc) = None ->
  companion_completes load_attributes w
    {| bucket := bucket loc ++ ".meta"; key := key loc |} = true ->
  fields (local_files w file_path) <> ∅ ->
  let first := new_from_file scheme load_attributes split_s3_path data_type
                 file_path uri s3_config w in
  let second := new_from_file scheme load_attributes split_s3_path data_type'
                  file_path' uri s3_config (snd first) in
  fst second = Raise (Exception "Object already exists") /\
  objects (snd second) = objects (snd first) /\
  filter (fun c => is_upload c = true) (calls (snd second))
  = filter (fun c => is_upload c = true) (calls (snd first)).
Proof.
  intros Huri Hsplit Habsent Hcomplete Hfile first second. subst second first.
  destruct (new_from_file_uploads scheme load_attributes split_s3_path data_type
              file_path uri s3_config w loc _ _ Huri Hsplit Habsent Hcomplete)
    as (co & Hrun & _).
  rewrite Hrun. simpl.
  set (w2 := {| objects := <[(bucket loc, key loc) := local_files w file_path]>
                             (objects w);
                local_files := local_files w;
                calls := calls w ++ [HeadObject (bucket loc) (key loc);
                                     HeadObject (bucket loc ++ ".meta") (key loc);
                                     UploadFile file_path (bucket loc) (key loc)] |}).
  destruct (new_from_file_run scheme load_attributes split_s3_path data_type'
              file_path' uri s3_config w2 loc Huri) as [s3 Hrun2].
  set (co0 := new_reference data_type' loc s3) in *.
  destruct (exists_on_empty_slots load_attributes co0 w2 eq_refl eq_refl)
    as [Hcalls Hres].
  pose proof (exists_frame load_attributes co0 w2) as (_ & _ & _ & _ & Hobjs).
  unfold companion_completes in Hcomplete.
  simpl in Hcalls, Hres, Hobjs, Hcomplete.
  rewrite lookup_insert_eq in Hres.
  rewrite lookup_insert_ne in Hres
    by (intros [= H]; exact (append_meta_differs _ (eq_sym H))).
  simpl in Hres. rewrite bool_decide_eq_false_2 in Hres by exact Hfile.
  simpl in Hres.
  destruct (exists_ load_attributes (co0, w2)) as [r [co' w']].
  simpl in Hcalls, Hres, Hobjs.
  assert (Hr : r = Return true).
  { rewrite Hres.
    destruct (objects w !! (bucket loc ++ ".meta", key loc)) as [c|];
      [|reflexivity].
    destruct (load_attributes (payload c)) as [attrs|[]];
      first [reflexivity | discriminate]. }
  rewrite Hr in Hrun2. rewrite Hrun2. simpl.
  split; [reflexivity|]. split; [exact Hobjs|].
  rewrite Hcalls, filter_app. simpl. apply app_nil_r.
Qed.

Lemma new_from_file_twice_witness :
  let first := new_from_file "store" Fixture.decode Fixture.split_path
                 Fixture.csv_type "/tmp/data.csv" "store://bucket1/data.csv" None
                 Fixture.empty_store in
  let second := new_from_file "store" Fixture.decode Fixture.split_path
                  Fixture.text_type "/tmp/other.csv" "store://bucket1/data.csv"
                  None (snd first) in
  fst second = Raise (Exception "Object already exists") /\
  objects (snd second) = objects (snd first).
Proof.
  destruct (new_from_file_twice "store" Fixture.decode Fixture.split_path
              Fixture.csv_type Fixture.text_type "/tmp/data.csv" "/tmp/other.csv"
              "store://bucket1/data.csv" None Fixture.empty_store
              {| bucket := "bucket1"; key := "data.csv" |}
              eq_refl eq_refl eq_refl eq_refl)
    as (Hres & Hobjs & _).
  - vm_compute. discriminate.
  - split; [exact Hres|exact Hobjs].
Defined.

(** ** [size] *)

(** [size] is [exists] without the final test: a [fetch] with no flag set
    when the object slot holds no record, then the content length read from
    the slot. *)
Lemma size_unfold
    (load_attributes : string -> result SimpleNamespace)
    (int : string -> option Z) (self : CloudObject) (w : World) :
  size load_attributes int (self, w) =
    if truthy (_obj_meta self)
    then (content_length int (_obj_meta self), (self, w))
    else
      let out := fetch load_attributes false false (self, w) in
      match fst out with
      | Return _ => (content_length int (_obj_meta (fst (snd out))), snd out)
      | Raise e => (Raise e, snd out)
      end.
Proof.
  unfold size at 1.
  cbv [bind when get_self ret raise fst snd].
  destruct (truthy (_obj_meta self)) eqn:Hom; simpl.
  - unfold content_length.
    destruct (_obj_meta self) as [d|]; [|reflexivity].
    destruct (d !! "ContentLength") as [v|]; [|reflexivity].
    destruct (int v); reflexivity.
  - destruct (fetch load_attributes false false (self, w)) as [[r|e] [self1 w1]];
      simpl; [|reflexivity].
    unfold content_length.
    destruct (_obj_meta self1) as [d|]; [|reflexivity].
    destruct (d !! "ContentLength") as [v|]; [|reflexivity].
    destruct (int v); reflexivity.
Qed.

(** X19.  With a record in the object slot, [size] makes no call and assigns
    nothing: it returns the integer of the record's content length, raises
    [KeyError] when the record has none and [ValueError] when it is no
    integer. *)
Theorem size_from_cache
    (load_attributes : string -> result SimpleNamespace)
    (int : string -> option Z) (self : CloudObject) (w : World) (d : Dict) :
  _obj_meta self = Some d ->
  d <> ∅ ->
  size load_attributes int (self, w)
  = (match d !! "ContentLength" with
     | None => Raise KeyError
     | Some v =>
         match int v with
         | Some n => Return n
         | None => Raise (ValueError "invalid literal for int() with base 10")
         end
     end, (self, w)).
Proof.
  intros Hom Hd. rewrite size_unfold, Hom. simpl.
  rewrite bool_decide_eq_false_2 by exact Hd. reflexivity.
Qed.

Lemma size_from_cache_witness :
  let cached := snd (fetch Fixture.decode false false
                       (Fixture.reference, Fixture.data_only)) in
  size Fixture.decode Fixture.parse_int (fst cached, Fixture.empty_store)
  = (Return 10%Z, (fst cached, Fixture.empty_store)).
Proof.
  intros cached.
  rewrite (size_from_cache Fixture.decode Fixture.parse_int (fst cached)
             Fixture.empty_store {["ContentLength" := "10"]}).
  - reflexivity.
  - vm_compute. reflexivity.
  - vm_compute. discriminate.
Defined.

(** X20.  [size] of an object that is not stored: the [fetch] leaves [None] in
    the object slot, and subscripting it raises [TypeError], not [KeyError],
    whenever the lookup of the companion runs to its end. *)
Theorem size_of_absent_object_raises_TypeError
    (load_attributes : string -> result SimpleNamespace)
    (int : string -> option Z) (self : CloudObject) (w : World) :
  truthy (_obj_meta self) = false ->
  objects w !! (bucket (_obj_path self), key (_obj_path self)) = None ->
  companion_completes load_attributes w (_meta_path self) = true ->
  fst (size load_attributes int (self, w))
  = Raise (TypeError "'NoneType' object is not subscriptable").
Proof.
  intros Hom Habsent Hcomplete.
  rewrite size_unfold, Hom. cbv zeta.
  destruct (fetch_unenforced_returns load_attributes self w Hcomplete) as [r Hr].
  rewrite Hr. simpl. rewrite fetch_obj_meta, Hom, Habsent. reflexivity.
Qed.

Lemma size_of_absent_object_raises_TypeError_witness :
  fst (size Fixture.decode Fixture.parse_int
         (Fixture.reference, Fixture.companion_only))
  = Raise (TypeError "'NoneType' object is not subscriptable").
Proof.
  exact (size_of_absent_object_raises_TypeError Fixture.decode Fixture.parse_int
           Fixture.reference Fixture.companion_only eq_refl eq_refl eq_refl).
Defined.

(** X21.  [size] of a stored object, on a reference whose object slot holds no
    record: after the lookups of [fetch] it returns the integer of the
    content length the store reports, and raises [KeyError] when the fields
    lack it; the slot then holds the fields.  This needs the lookup of the
    companion to run to its end: [size] goes through the same [fetch]. *)
Theorem size_fetches_content_length
    (load_attributes : string -> result SimpleNamespace)
    (int : string -> option Z) (self : CloudObject) (w : World) (o : S3Object) :
  truthy (_obj_meta self) = false ->
  objects w !! (bucket (_obj_path self), key (_obj_path self)) = Some o ->
  companion_completes load_attributes w (_meta_path self) = true ->
  let out := size load_attributes int (self, w) in
  fst out = content_length int (Some (fields o)) /\
  _obj_meta (fst (snd out)) = Some (fields o) /\
  calls (snd (snd out))
  = (calls w ++ HeadObject (bucket (_obj_path self)) (key (_obj_path self))
       :: companion_lookups false self w)%list.
Proof.
  intros Hom Ho Hcomplete out. subst out.
  rewrite size_unfold, Hom. cbv zeta.
  destruct (fetch_unenforced_returns load_attributes self w Hcomplete) as [r Hr].
  rewrite Hr. simpl. rewrite fetch_obj_meta, fetch_calls, Hom, Ho.
  unfold object_lookups. rewrite Hom. auto.
Qed.

Lemma size_fetches_content_length_witness :
  fst (size Fixture.decode Fixture.parse_int
         (Fixture.reference, Fixture.data_and_companion)) = Return 10%Z /\
  fst (size Fixture.decode Fixture.parse_int
         (Fixture.reference, Fixture.data_without_length_only)) = Raise KeyError.
Proof.
  split.
  - destruct (size_fetches_content_length Fixture.decode Fixture.parse_int
                Fixture.reference Fixture.data_and_companion Fixture.data_object
                eq_refl eq_refl eq_refl) as [Hres _].
    rewrite Hres. vm_compute. reflexivity.
  - destruct (size_fetches_content_length Fixture.decode Fixture.parse_int
                Fixture.reference Fixture.data_without_length_only
                Fixture.data_without_length eq_refl eq_refl eq_refl)
      as [Hres _].
    rewrite Hres. vm_compute. reflexivity.
Defined.

(** ** Programs of read-only calls *)

Lemma reads_only_refl (s : Obj) : reads_only s s.
Proof.
  unfold reads_only. repeat split; try reflexivity.
  exists []. split; [symmetry; apply app_nil_r|constructor].
Qed.

Lemma reads_only_trans (s1 s2 s3 : Obj) :
  reads_only s1 s2 -> reads_only s2 s3 -> reads_only s1 s3.
Proof.
  unfold reads_only.
  intros (Ho1 & Hf1 & Hp1 & Hq1 & Hc1 & Hs1 & (t1 & Ht1 & HF1) & Hom1 & Hmm1)
         (Ho2 & Hf2 & Hp2 & Hq2 & Hc2 & Hs2 & (t2 & Ht2 & HF2) & Hom2 & Hmm2).
  split; [congruence|]. split; [congruence|]. split; [congruence|].
  split; [congruence|]. split; [congruence|]. split; [congruence|].
  split; [|split].
  - exists (t1 ++ t2)%list. split.
    + rewrite Ht2, Ht1, app_assoc. reflexivity.
    + apply Forall_app. split; [exact HF1|].
      rewrite Hp1, Hq1 in HF2. exact HF2.
  - intros H. rewrite <- (Hom1 H). apply Hom2. rewrite (Hom1 H). exact H.
  - intros H. destruct (Hmm1 H) as [Ha Hb].
    assert (H' : truthy (_meta_meta (fst s2)) = true) by (rewrite Ha; exact H).
    destruct (Hmm2 H') as [Ha' Hb']. split; congruence.
Qed.

Lemma fetch_reads_only
    (load_attributes : string -> result SimpleNamespace)
    (enforce_obj enforce_meta : bool) (s : Obj) :
  reads_only s (snd (fetch load_attributes enforce_obj enforce_meta s)).
Proof.
  destruct s as [self w].
  pose proof (fetch_outcome load_attributes enforce_obj enforce_meta self w)
    as (Hcalls & (Hobjs & Hfiles) & (Hp & Hq & Hc & Hs) & Hattrs & Hom & Hmm & _).
  unfold reads_only. simpl.
  split; [exact Hobjs|]. split; [exact Hfiles|]. split; [exact Hp|].
  split; [exact Hq|]. split; [exact Hc|]. split; [exact Hs|].
  split; [|split].
  - eexists. split; [exact Hcalls|].
    unfold object_lookups, companion_lookups.
    destruct (truthy (_obj_meta self)), (companion_probed enforce_obj self w);
      simpl; repeat (apply List.Forall_cons; [auto|]); apply List.Forall_nil.
  - intros H. rewrite Hom, H. reflexivity.
  - intros H. rewrite Hmm, Hattrs. unfold companion_probed. rewrite H. auto.
Qed.

Lemma exists_reads_only
    (load_attributes : string -> result SimpleNamespace) (s : Obj) :
  reads_only s (snd (exists_ load_attributes s)).
Proof.
  destruct s as [self w].
  destruct (truthy (_obj_meta self)) eqn:Hom.
  - rewrite exists_unfold, Hom. apply reads_only_refl.
  - rewrite (exists_state _ _ _ Hom). apply fetch_reads_only.
Qed.

Lemma is_preprocessed_reads_only (s : Obj) :
  reads_only s (snd (is_preprocessed s)).
Proof.
  destruct s as [self w]. rewrite is_preprocessed_probe.
  unfold reads_only. simpl. repeat split; try reflexivity.
  eexists. split; [reflexivity|].
  apply List.Forall_cons; [auto|apply List.Forall_nil].
Qed.

Lemma size_reads_only
    (load_attributes : string -> result SimpleNamespace)
    (int : string -> option Z) (s : Obj) :
  reads_only s (snd (size load_attributes int s)).
Proof.
  destruct s as [self w]. rewrite size_unfold.
  destruct (truthy (_obj_meta self)); [apply reads_only_refl|].
  cbv zeta.
  pose proof (fetch_reads_only load_attributes false false (self, w)) as H.
  destruct (fst (fetch load_attributes false false (self, w))); exact H.
Qed.

Lemma get_attribute_state
    (getattr_special : SimpleNamespace -> string -> result Any)
    (k : string) (s : Obj) :
  snd (get_attribute getattr_special k s) = s.
Proof.
  unfold get_attribute, bind, get_self, ret, raise, pure. simpl.
  destruct (is_dunder k); [reflexivity|].
  destruct (_obj_attrs (fst s) !! k); reflexivity.
Qed.

Lemma call_reads_only
    (load_attributes : string -> result SimpleNamespace)
    (int : string -> option Z)
    (getattr_special : SimpleNamespace -> string -> result Any)
    (m : method) (s : Obj) :
  reads_only s (snd (call load_attributes int getattr_special m s)).
Proof.
  assert (Hdrop : forall A (c : M Obj A), snd ((c ;; ret tt) s) = snd (c s)).
  { intros A c. unfold bind, ret. destruct (c s) as [[a|e] s']; reflexivity. }
  destruct m as [eo em| | |k|]; simpl; rewrite Hdrop.
  - apply fetch_reads_only.
  - apply exists_reads_only.
  - apply is_preprocessed_reads_only.
  - rewrite get_attribute_state. apply reads_only_refl.
  - apply size_reads_only.
Qed.

(** X22.  Whatever sequence of [fetch], [exists], [is_preprocessed],
    [get_attribute] and [size] a client makes on a reference, with whatever
    flags and whether or not calls raise: the stored objects and the local
    files are untouched, the location, the companion location, the type and
    the store handle of the reference are what they were, every call made on
    the store is a lookup of the object or of the companion (never an upload),
    and a record that a slot held at the start is still the record it holds
    at the end; with a record in the metadata slot the attributes too are
    unchanged. *)
Theorem read_only_calls_keep_store_and_cache
    (load_attributes : string -> result SimpleNamespace)
    (int : string -> option Z)
    (getattr_special : SimpleNamespace -> string -> result Any)
    (ms : list method) (s : Obj) :
  reads_only s (run_calls load_attributes int getattr_special ms s).
Proof.
  revert s. induction ms as [|m ms IH]; intros s.
  - apply reads_only_refl.
  - simpl. eapply reads_only_trans; [|apply IH].
    apply call_reads_only.
Qed.

Example read_only_calls_on_fixture :
  let s' := run_calls Fixture.decode Fixture.parse_int Fixture.special
              [Size; Exists; Fetch true true; IsPreprocessed; GetAttribute "lines"]
              (Fixture.reference, Fixture.data_only) in
  calls (snd s')
  = [HeadObject "bucket1" "data.csv"; HeadObject "bucket1.meta" "data.csv";
     HeadObject "bucket1.meta" "data.csv"; HeadObject "bucket1.meta" "data.csv"] /\
  objects (snd s') = objects Fixture.data_only /\
  _obj_meta (fst s') = Some {["ContentLength" := "10"]}.
Proof. vm_compute. repeat split; reflexivity. Qed.

(** ** Cloud data types, further *)

Lemma first_preprocessor_None (chain : list CloudDataType) :
  first_preprocessor chain = None <->
  Forall (fun t => __preprocessor t = None) chain.
Proof.
  unfold first_preprocessor.
  induction chain as [|t chain IH]; simpl.
  - split; [constructor|reflexivity].
  - destruct (__preprocessor t) as [p|] eqn:Hp; simpl.
    + split; [discriminate|]. intros H. inversion H; congruence.
    + rewrite IH. split.
      * intros H. constructor; assumption.
      * intros H. inversion H; assumption.
Qed.

Lemma first_preprocessor_Some (chain : list CloudDataType) (p : pyclass) :
  first_preprocessor chain = Some p ->
  exists t, t ∈ chain /\ __preprocessor t = Some p.
Proof.
  unfold first_preprocessor.
  induction chain as [|t chain IH]; simpl; [discriminate|].
  destruct (__preprocessor t) as [q|] eqn:Hq; simpl.
  - intros [= <-]. exists t. split; [constructor|exact Hq].
  - intros H. destruct (IH H) as (t' & Hin & Ht').
    exists t'. split; [constructor; exact Hin|exact Ht'].
Qed.

(** X23.  Resolution fails exactly when no type along the ancestry has a
    preprocessor of its own, and then with the no-preprocessor exception; a
    preprocessor it returns is the own preprocessor of some type of the
    ancestry. *)
Theorem preprocessor_fails_iff_none_in_ancestry (self : CloudDataType) :
  (preprocessor self = Raise (Exception "There is not preprocessor") <->
   Forall (fun t => __preprocessor t = None) (ancestry self)) /\
  (forall e, preprocessor self = Raise e ->
             e = Exception "There is not preprocessor") /\
  (forall p, preprocessor self = Return p ->
             exists t, t ∈ ancestry self /\ __preprocessor t = Some p).
Proof.
  rewrite preprocessor_first.
  split; [|split].
  - rewrite <- first_preprocessor_None.
    destruct (first_preprocessor (ancestry self)); split;
      first [discriminate | reflexivity].
  - intros e. destruct (first_preprocessor (ancestry self)); [discriminate|].
    intros [= <-]. reflexivity.
  - intros p. destruct (first_preprocessor (ancestry self)) as [q|] eqn:Hq;
      [|discriminate].
    intros [= <-]. exact (first_preprocessor_Some _ _ Hq).
Qed.

Lemma preprocessor_fails_iff_none_in_ancestry_witness :
  (exists t, t ∈ ancestry Fixture.tsv_type /\
             __preprocessor t = Some Fixture.csv_preprocessor) /\
  Forall (fun t => __preprocessor t = None) (ancestry Fixture.text_type).
Proof.
  split.
  - exact (proj2 (proj2 (preprocessor_fails_iff_none_in_ancestry Fixture.tsv_type))
             Fixture.csv_preprocessor eq_refl).
  - exact (proj1 (proj1 (preprocessor_fails_iff_none_in_ancestry Fixture.text_type))
             eq_refl).
Defined.

(** X24.  Binding a class, or failing to, never changes what a type resolves to:
    [__call__] assigns [co_class] only, so the preprocessor and the ancestry
    the resolution walks are the same before and after, whatever the argument
    and whether the call returns or raises. *)
Theorem call_preserves_resolution (cls : pyobject) (self : CloudDataType) :
  let self' := snd (CloudDataType__call__ cls self) in
  preprocessor self' = preprocessor self /\
  __preprocessor self' = __preprocessor self /\
  __parent self' = __parent self /\
  (isclass cls = false -> self' = self).
Proof.
  destruct self as [bound own parent], cls as [c|t], bound as [b|];
    simpl; repeat split; first [reflexivity | congruence].
Qed.

Lemma call_preserves_resolution_witness :
  preprocessor (snd (CloudDataType__call__ (ClassObject Fixture.plain_class)
                       Fixture.tsv_type))
  = Return Fixture.csv_preprocessor /\
  snd (CloudDataType__call__ (OtherObject "int") Fixture.tsv_type)
  = Fixture.tsv_type.
Proof.
  split.
  - rewrite (proj1 (call_preserves_resolution (ClassObject Fixture.plain_class)
                      Fixture.tsv_type)).
    reflexivity.
  - exact (proj2 (proj2 (proj2 (call_preserves_resolution (OtherObject "int")
                                  Fixture.tsv_type))) eq_refl).
Defined.
